(** * PredictX-Bikes: the price adjuster and the request handlers of [app.py]

    A shallow embedding of [src/app.py] and the properties its specification
    states about it.

    Modelling conventions.
    - A Python [float] is an exact rational ([Qc], rationals in lowest terms,
      with Leibniz equality).  The decimal literals of the source ([1.05],
      [0.88], ...) denote the decimals they spell.  Rounding, infinities and
      NaN are outside the model: a payload that carries the literal [NaN] or
      [Infinity], or a string that [float] reads as one of them, is not a
      value of [pyval], and no property below speaks of such a request.
    - A Python [int] is a [Z].
    - A Python [str] is a [string] of ASCII characters; [str.lower] acts on
      the letters [A]..[Z] only.
    - A [dict] whose iteration order the code relies on ([model_map]) is an
      association list in insertion order; the other dictionaries are finite
      maps ([gmap string _]).
    - Code that can raise returns in the error monad [exn + _]. *)

From Stdlib Require Import ZArith QArith Qcanon String Ascii List Bool Lia Lqa.
From stdpp Require Import base option gmap strings list fin_maps.

Set Warnings "-register-all,-clear-no-such-hyp".

Local Open Scope string_scope.
Local Open Scope list_scope.
Local Open Scope Z_scope.

(** ** Numbers *)

(** A float literal of the source. *)
Definition flt (q : Q) : Qc := Q2Qc q.

(** [a < b] on floats, as a boolean. *)
Definition Qcltb (a b : Qc) : bool :=
  match (a ?= b)%Qc with Lt => true | _ => false end.

(** [a <= b] on floats, as a boolean. *)
Definition Qcleb (a b : Qc) : bool :=
  match (a ?= b)%Qc with Gt => false | _ => true end.

(** ** Strings *)

(** [c.lower()] for one ASCII character. *)
Definition lower_ascii (c : ascii) : ascii :=
  let n := nat_of_ascii c in
  if (Nat.leb 65 n && Nat.leb n 90)%bool then ascii_of_nat (n + 32) else c.

(** [s.lower()] *)
Fixpoint str_lower (s : string) : string :=
  match s with
  | EmptyString => EmptyString
  | String c s' => String (lower_ascii c) (str_lower s')
  end.

(** [key in s] for two strings: [key] occurs in [s] as a substring. *)
Fixpoint contains (key s : string) : bool :=
  (String.prefix key s ||
   match s with
   | EmptyString => false
   | String _ s' => contains key s'
   end)%bool.

(** ** Python values

    The values a parsed JSON document is made of; the optional arguments of
    [apply_heuristics] arrive as such values on the JSON path.  A [dict] is
    given by the list of its items; should a key stand twice in the list, the
    first item is the one the dict holds. *)
Inductive pyval : Type :=
| PNone
| PBool (b : bool)
| PInt (z : Z)
| PFloat (q : Qc)
| PStr (s : string)
| PList (l : list pyval)
| PDict (d : list (string * pyval)).

(** The exceptions the modelled code can raise.  The text of an exception
    produced by the Python runtime is not part of the source: such an
    exception is kept as the operation that raised it and its operand.
    [ModelError] is whatever [model.predict] raises; [Raised msg] is a
    [raise ValueError(msg)] of the source itself. *)
Inductive exn : Type :=
| ValueError (op : string) (arg : pyval)
| TypeError (op : string) (arg : pyval)
| AttributeError (obj : pyval) (attr : string)
| OverflowError (op : string) (arg : pyval)
| KeyError (key : string)
| ModelError (msg : string)
| Raised (msg : string).

(** The error monad of code that may raise. *)
Definition result (A : Type) : Type := (exn + A)%type.

Definition ret {A} (a : A) : result A := inr a.
Definition raise {A} (e : exn) : result A := inl e.
Definition bind {A B} (m : result A) (k : A -> result B) : result B :=
  match m with
  | inl e => inl e
  | inr a => k a
  end.

Notation "'do' x <- m ; k" := (bind m (fun x => k))
  (at level 10, x name, m at level 100, k at level 200).
Notation "'do' ' p <- m ; k" := (bind m (fun x => match x with p => k end))
  (at level 10, p pattern, m at level 100, k at level 200).

(** [bool(v)]: the truth value of [v] in a condition. *)
Definition truthy (v : pyval) : bool :=
  match v with
  | PNone => false
  | PBool b => b
  | PInt z => negb (z =? 0)
  | PFloat q => negb (Qc_eq_bool q (flt 0))
  | PStr s => negb (String.eqb s "")
  | PList l => match l with [] => false | _ => true end
  | PDict d => match d with [] => false | _ => true end
  end.

(** [v.lower()]: only a [str] has the method. *)
Definition py_lower (v : pyval) : result string :=
  match v with
  | PStr s => ret (str_lower s)
  | _ => raise (AttributeError v "lower")
  end.

(** An optional string argument: [None] when absent. *)
Definition opt_str (o : option string) : pyval :=
  match o with
  | None => PNone
  | Some s => PStr s
  end.

(** ** The heuristic adjuster: [apply_heuristics] (app.py, lines 36-110) *)

Definition owner_map : gmap string Qc :=
  <["4th owner" := flt 0.90]>
  (<["3rd owner" := flt 0.94]>
  (<["2nd owner" := flt 0.98]>
  (<["1st owner" := flt 1.05]> ∅))).

Definition seller_map : gmap string Qc :=
  <["trustmark dealer" := flt 1.05]>
  (<["dealer" := flt 1.03]>
  (<["individual" := flt 1.00]> ∅)).

(** [model_map], in insertion order: the [for] loop iterates it in this order. *)
Definition model_map : list (string * Qc) :=
  [ ("royal", flt 1.15);
    ("honda", flt 1.06);
    ("yamaha", flt 1.05);
    ("bajaj", flt 1.00);
    ("hero", flt 1.00);
    ("suzuki", flt 1.04) ].

(** [d.get(key, 1.0)] *)
Definition get_or_one (d : gmap string Qc) (key : string) : Qc :=
  default (flt 1.0) (d !! key).

(** The [for key, val in model_map.items(): if key in lowered: ... break]
    loop: the value of the first key, in iteration order, that occurs in
    [lowered]; [None] when the loop ends with [found] still false. *)
Fixpoint first_keyword (items : list (string * Qc)) (lowered : string) : option Qc :=
  match items with
  | [] => None
  | (key, val) :: rest =>
      if contains key lowered then Some val else first_keyword rest lowered
  end.

(** The local state of [apply_heuristics]: [multiplier] and [breakdown]. *)
Definition adj_state : Type := (Qc * gmap string Qc)%type.

(** Lines 69-73. *)
Definition owner_step (owner : pyval) (st : adj_state) : result adj_state :=
  let '(multiplier, breakdown) := st in
  if truthy owner then
    do owner_key <- py_lower owner ;
    let mult := get_or_one owner_map owner_key in
    ret ((multiplier * mult)%Qc, <["owner_multiplier" := mult]> breakdown)
  else ret st.

(** Lines 75-79. *)
Definition seller_step (seller_type : pyval) (st : adj_state) : result adj_state :=
  let '(multiplier, breakdown) := st in
  if truthy seller_type then
    do seller_key <- py_lower seller_type ;
    let mult := get_or_one seller_map seller_key in
    ret ((multiplier * mult)%Qc, <["seller_multiplier" := mult]> breakdown)
  else ret st.

(** The [if]/[elif] chain of lines 83-90. *)
Definition km_mult (km_driven : Qc) : Qc :=
  if Qcltb (flt 50000) km_driven then flt 0.88
  else if Qcltb (flt 30000) km_driven then flt 0.95
  else if Qcltb km_driven (flt 15000) then flt 1.03
  else flt 1.0.

(** Lines 81-92. *)
Definition km_step (km_driven : option Qc) (st : adj_state) : adj_state :=
  let '(multiplier, breakdown) := st in
  match km_driven with
  | Some km =>
      let mult := km_mult km in
      ((multiplier * mult)%Qc, <["km_multiplier" := mult]> breakdown)
  | None => st
  end.

(** Lines 94-104. *)
Definition model_step (model_name : pyval) (st : adj_state) : result adj_state :=
  let '(multiplier, breakdown) := st in
  if truthy model_name then
    do lowered <- py_lower model_name ;
    match first_keyword model_map lowered with
    | Some val =>
        ret ((multiplier * val)%Qc, <["model_multiplier" := val]> breakdown)
    | None =>
        ret (multiplier, <["model_multiplier" := flt 1.0]> breakdown)
    end
  else ret st.

(** [apply_heuristics(base_pred, owner, seller_type, model_name, km_driven,
    apply_adjustments)].  Both callers pass a float for [base_pred], a float
    (or the default [None]) for [km_driven] and a [bool] for
    [apply_adjustments]; the three optional strings are whatever the request
    carried. *)
Definition apply_heuristics (base_pred : Qc) (owner seller_type model_name : pyval)
    (km_driven : option Qc) (apply_adjustments : bool)
    : result (Qc * gmap string Qc) :=
  let breakdown : gmap string Qc := {[ "base" := base_pred ]} in
  if negb apply_adjustments then ret (base_pred, breakdown)
  else
    let multiplier := flt 1.0 in
    do st <- owner_step owner (multiplier, breakdown) ;
    do st <- seller_step seller_type st ;
    let st := km_step km_driven st in
    do '(multiplier, breakdown) <- model_step model_name st ;
    let adjusted := (base_pred * multiplier)%Qc in
    let breakdown := <["adjusted" := adjusted]> breakdown in
    let breakdown := <["total_multiplier" := multiplier]> breakdown in
    ret (adjusted, breakdown).

(** ** Conversions of request values *)

(** [int(q)] for a float: truncation towards zero. *)
Definition Qc_trunc (q : Qc) : Z := Z.quot (Qnum q) (Zpos (Qden q)).

(** [float(z)] for an int within the range of a double. *)
Definition Qc_of_Z (z : Z) : Qc := Q2Qc (inject_Z z).

(** The first integer that rounds beyond the largest double,
    [2^1024 - 2^970]: from there on [float(z)] raises [OverflowError]. *)
Definition FLOAT_INT_LIMIT : Z := 2 ^ 1024 - 2 ^ 970.

Section Handlers.

(** Python's built-ins [int] and [float] on a [str], [None] when they raise
    [ValueError]; and [datetime.now().year], read once at start-up. *)
Variable int_of_str : string -> option Z.
Variable float_of_str : string -> option Qc.
Variable CURRENT_YEAR : Z.

(** [int(v)] *)
Definition py_int (v : pyval) : result Z :=
  match v with
  | PInt z => ret z
  | PBool b => ret (if b then 1 else 0)
  | PFloat q => ret (Qc_trunc q)
  | PStr s =>
      match int_of_str s with
      | Some z => ret z
      | None => raise (ValueError "int" v)
      end
  | _ => raise (TypeError "int" v)
  end.

(** [float(v)] *)
Definition py_float (v : pyval) : result Qc :=
  match v with
  | PInt z =>
      if Z.abs z <? FLOAT_INT_LIMIT then ret (Qc_of_Z z)
      else raise (OverflowError "float" v)
  | PBool b => ret (Qc_of_Z (if b then 1 else 0))
  | PFloat q => ret q
  | PStr s =>
      match float_of_str s with
      | Some q => ret q
      | None => raise (ValueError "float" v)
      end
  | _ => raise (TypeError "float" v)
  end.

(** ** The model provider (app.py, lines 17-33) *)

(** The unpickled model: [model.predict(X)[0]] on the one-row frame with the
    columns [year, km_driven, ex_showroom_price, age], and the attribute
    [feature_names_in_] when the model has it. *)
Record predictor : Type := {
  predict : Z -> Qc -> Qc -> Z -> result Qc;
  feature_names_in_ : option (list string)
}.

(** The module-level variables of the application. *)
Record server : Type := {
  CORS_AVAILABLE : bool;
  model : option predictor;
  model_loaded : bool;
  load_error : option string
}.

Definition MODEL_PATH : string := "best_bike_price_model.pkl".

(** The start-up code: [path_exists] is [os.path.exists(MODEL_PATH)] and
    [loaded] what [joblib.load] does, the text of its exception or the
    model. *)
Definition startup (cors path_exists : bool) (loaded : string + predictor) : server :=
  if path_exists then
    match loaded with
    | inr m =>
        {| CORS_AVAILABLE := cors; model := Some m;
           model_loaded := true; load_error := None |}
    | inl e =>
        {| CORS_AVAILABLE := cors; model := None;
           model_loaded := false; load_error := Some e |}
    end
  else
    {| CORS_AVAILABLE := cors; model := None; model_loaded := false;
       load_error := Some ("Model file not found at " +:+ MODEL_PATH +:+
                           ". Run the training notebook to create it.") |}.

(** [model.predict(X)[0]]: with [model = None] the attribute access raises. *)
Definition model_predict (srv : server) (year : Z) (km_driven ex_showroom_price : Qc)
    (age : Z) : result Qc :=
  match model srv with
  | Some m => predict m year km_driven ex_showroom_price age
  | None => raise (AttributeError PNone "predict")
  end.

(** ** Responses *)

(** An error text: a string of the source, or [str(e)] of an exception of
    the runtime. *)
Inductive message : Type :=
| Text (s : string)
| StrOf (e : exn).

(** [str(e)] *)
Definition str_exn (e : exn) : message :=
  match e with
  | Raised msg => Text msg
  | _ => StrOf e
  end.

Inductive body : Type :=
| ErrorBody (error : message)
| PredictionBody (predicted_selling_price adjusted_prediction : Qc)
    (breakdown : gmap string Qc).

(** What a JSON view produces: [jsonify(body), status], or an exception that
    leaves the view. *)
Inductive response : Type :=
| Json (status : Z) (b : body)
| Unhandled (e : exn).

(** The template variables [index] renders. *)
Record page : Type := {
  prediction : option Qc;
  adjusted_prediction : option Qc;
  breakdown : option (gmap string Qc);
  error : option message
}.

(** The answer of [/health]. *)
Record health_report : Type := {
  h_model_loaded : bool;
  h_model_path : string;
  h_load_error : option string;
  h_feature_names : option (list string);
  h_cors_available : bool
}.

(** ** The form page: [index] (app.py, lines 113-168) *)

Inductive http_method : Type := GET | POST.

(** [request.form.get(key)]: the first value of the field. *)
Fixpoint form_get (form : list (string * string)) (key : string) : option string :=
  match form with
  | [] => None
  | (k, v) :: rest => if String.eqb k key then Some v else form_get rest key
  end.

(** [x or None] for [x] a string or [None]. *)
Definition or_none (x : option string) : option string :=
  match x with
  | Some s => if String.eqb s "" then None else Some s
  | None => None
  end.

(** [f"{x}"] for [x] a string or [None]. *)
Definition format_opt (x : option string) : string :=
  match x with
  | Some s => s
  | None => "None"
  end.

(** Lines 129-145: the fields are read and converted, then range-checked. *)
Definition index_inputs (form : list (string * string)) : result (Z * Qc * Qc) :=
  do year <- py_int (opt_str (form_get form "year")) ;
  do km_driven <- py_float (opt_str (form_get form "km_driven")) ;
  do ex_showroom_price <- py_float (opt_str (form_get form "ex_showroom_price")) ;
  if (year <? 1900) || (CURRENT_YEAR <? year) then
    raise (Raised "Please enter a valid manufacturing year.")
  else if Qcltb km_driven (flt 0) then
    raise (Raised "Kilometers driven cannot be negative.")
  else if Qcleb ex_showroom_price (flt 0) then
    raise (Raised "Ex-showroom price must be positive.")
  else ret (year, km_driven, ex_showroom_price).

(** Lines 129-155: the [try] block up to [prediction = float(pred)]. *)
Definition index_predict (srv : server) (form : list (string * string))
    : result (Qc * Qc) :=
  do '(year, km_driven, ex_showroom_price) <- index_inputs form ;
  let age := CURRENT_YEAR - year in
  do pred <- model_predict srv year km_driven ex_showroom_price age ;
  ret (km_driven, pred).

Definition index (srv : server) (method : http_method) (form : list (string * string))
    : page :=
  if negb (model_loaded srv) then
    {| prediction := None; adjusted_prediction := None; breakdown := None;
       error := match method with
                | POST => Some (Text ("Model not loaded: " +:+ format_opt (load_error srv)))
                | GET => None
                end |}
  else
    match method with
    | GET =>
        {| prediction := None; adjusted_prediction := None; breakdown := None;
           error := None |}
    | POST =>
        match index_predict srv form with
        | inl e =>
            {| prediction := None; adjusted_prediction := None; breakdown := None;
               error := Some (str_exn e) |}
        | inr (km_driven, pred) =>
            let owner := or_none (form_get form "owner") in
            let seller_type := or_none (form_get form "seller_type") in
            let model_name := or_none (form_get form "model_name") in
            let apply_adjustments :=
              match form_get form "apply_adjustments" with
              | Some v => String.eqb v "on"
              | None => false
              end in
            match apply_heuristics pred (opt_str owner) (opt_str seller_type)
                    (opt_str model_name) (Some km_driven) apply_adjustments with
            | inl e =>
                {| prediction := Some pred; adjusted_prediction := None;
                   breakdown := None; error := Some (str_exn e) |}
            | inr (adjusted, bd) =>
                {| prediction := Some pred; adjusted_prediction := Some adjusted;
                   breakdown := Some bd; error := None |}
            end
        end
    end.

(** ** The health probe: [health] (app.py, lines 171-189) *)

Definition health (srv : server) : health_report :=
  {| h_model_loaded := model_loaded srv;
     h_model_path := MODEL_PATH;
     h_load_error := if negb (model_loaded srv) then load_error srv else None;
     h_feature_names :=
       match model srv with
       | Some m => feature_names_in_ m
       | None => None
       end;
     h_cors_available := CORS_AVAILABLE srv |}.

(** ** The JSON endpoint: [predict_api] (app.py, lines 192-240) *)

(** [d.get(key)] on the parsed object, given as its list of members. *)
Fixpoint dict_get (d : list (string * pyval)) (key : string) : option pyval :=
  match d with
  | [] => None
  | (k, v) :: rest => if String.eqb k key then Some v else dict_get rest key
  end.

(** [key in d] for a dict. *)
Definition has_key (d : list (string * pyval)) (key : string) : bool :=
  match dict_get d key with
  | Some _ => true
  | None => false
  end.

(** [k in data]: a key of a dict, an element of a list, a substring of a
    string; a [TypeError] on anything else. *)
Definition py_in (k : string) (data : pyval) : result bool :=
  match data with
  | PDict d => ret (has_key d k)
  | PList l =>
      ret (existsb (fun v => match v with PStr s => String.eqb s k | _ => false end) l)
  | PStr s => ret (contains k s)
  | _ => raise (TypeError "in" data)
  end.

(** [data[k]] for a string [k]. *)
Definition py_getitem (data : pyval) (k : string) : result pyval :=
  match data with
  | PDict d =>
      match dict_get d k with
      | Some v => ret v
      | None => raise (KeyError k)
      end
  | _ => raise (TypeError "getitem" data)
  end.

(** [data.get(k, dflt)]; [data.get(k)] is [data.get(k, None)]. *)
Definition py_get (data : pyval) (k : string) (dflt : pyval) : result pyval :=
  match data with
  | PDict d => ret (default dflt (dict_get d k))
  | _ => raise (AttributeError data "get")
  end.

(** [[k for k in required if k not in data]] *)
Fixpoint missing_keys (required : list string) (data : pyval) : result (list string) :=
  match required with
  | [] => ret []
  | k :: rest =>
      do present <- py_in k data ;
      do more <- missing_keys rest data ;
      ret (if present then more else k :: more)
  end.

(** [str(l)] for a list of strings that need no escaping. *)
Fixpoint repr_items (l : list string) : string :=
  match l with
  | [] => ""
  | [k] => "'" +:+ k +:+ "'"
  | k :: rest => "'" +:+ k +:+ "', " +:+ repr_items rest
  end.

Definition repr_list (l : list string) : string := "[" +:+ repr_items l +:+ "]".

Definition required : list string := ["year"; "km_driven"; "ex_showroom_price"].

(** Lines 209-238: the body of the [try]. *)
Definition predict_api_try (srv : server) (data : pyval) : result response :=
  do vy <- py_getitem data "year" ;
  do year <- py_int vy ;
  do vk <- py_getitem data "km_driven" ;
  do km_driven <- py_float vk ;
  do vp <- py_getitem data "ex_showroom_price" ;
  do ex_showroom_price <- py_float vp ;
  if (year <? 1900) || (CURRENT_YEAR <? year) then
    ret (Json 400 (ErrorBody (Text "Invalid year")))
  else if Qcltb km_driven (flt 0) then
    ret (Json 400 (ErrorBody (Text "Invalid km_driven")))
  else if Qcleb ex_showroom_price (flt 0) then
    ret (Json 400 (ErrorBody (Text "Invalid ex_showroom_price")))
  else
    let age := CURRENT_YEAR - year in
    do pred <- model_predict srv year km_driven ex_showroom_price age ;
    do owner <- py_get data "owner" PNone ;
    do seller_type <- py_get data "seller_type" PNone ;
    do model_name <- py_get data "model_name" PNone ;
    do flag <- py_get data "apply_adjustments" (PBool false) ;
    let apply_adjustments := truthy flag in
    do '(adjusted, bd) <- apply_heuristics pred owner seller_type model_name
                            (Some km_driven) apply_adjustments ;
    ret (Json 200 (PredictionBody pred adjusted bd)).

Definition predict_api (srv : server) (data : pyval) : response :=
  if negb (truthy data) then
    Json 400 (ErrorBody (Text "No JSON payload provided"))
  else
    match missing_keys required data with
    | inl e => Unhandled e
    | inr missing =>
        match missing with
        | _ :: _ =>
            Json 400 (ErrorBody (Text ("Missing fields: " +:+ repr_list missing)))
        | [] =>
            match predict_api_try srv data with
            | inl e => Json 500 (ErrorBody (str_exn e))
            | inr resp => resp
            end
        end
    end.

End Handlers.

(** ** Specification-side definitions *)


(** The factor recorded under [key] by a run of the adjuster, if the run
    returned and recorded one. *)
Definition recorded (key : string) (r : result (Qc * gmap string Qc)) : option Qc :=
  match r with
  | inr (_, bd) => bd !! key
  | inl _ => None
  end.

(** The factor a breakdown holds under [key], an absent key counting as 1.0. *)
Definition factor_or_one (bd : gmap string Qc) (key : string) : Qc :=
  default (flt 1.0) (bd !! key).

(** [bd[key] = v] when a factor [v] applies, nothing otherwise. *)
Definition put (key : string) (o : option Qc) (bd : gmap string Qc) : gmap string Qc :=
  match o with
  | Some v => <[key := v]> bd
  | None => bd
  end.

(** The factor a table gives for an optional string argument: none for a
    value that is not a non-empty string. *)
Definition table_factor (table : string -> Qc) (v : pyval) : option Qc :=
  match v with
  | PStr s => if String.eqb s "" then None else Some (table (str_lower s))
  | _ => None
  end.

Definition owner_factor : pyval -> option Qc :=
  table_factor (get_or_one owner_map).

Definition seller_factor : pyval -> option Qc :=
  table_factor (get_or_one seller_map).

Definition model_factor : pyval -> option Qc :=
  table_factor (fun lowered => default (flt 1.0) (first_keyword model_map lowered)).

(** The result of the adjuster in closed form, from the factors that apply. *)
Definition assembled (base_pred : Qc) (fo fs fk fm : option Qc) : Qc * gmap string Qc :=
  let total := (default 1 fo * default 1 fs * default 1 fk * default 1 fm)%Qc in
  ((base_pred * total)%Qc,
   <["total_multiplier" := total]>
   (<["adjusted" := (base_pred * total)%Qc]>
   (put "model_multiplier" fm
   (put "km_multiplier" fk
   (put "seller_multiplier" fs
   (put "owner_multiplier" fo {[ "base" := base_pred ]})))))).

(** Sample string parsers for the worked examples: an optional sign and
    decimal digits, a part of what Python's [int] and [float] accept. *)
Fixpoint digits_value (acc : Z) (s : string) : option Z :=
  match s with
  | EmptyString => Some acc
  | String c s' =>
      let n := Z.of_nat (nat_of_ascii c) in
      if (48 <=? n) && (n <=? 57) then digits_value (10 * acc + (n - 48)) s'
      else None
  end.

Definition sample_int_of_str (s : string) : option Z :=
  match s with
  | EmptyString => None
  | String "-" (String c s') => Z.opp <$> digits_value 0 (String c s')
  | String "+" (String c s') => digits_value 0 (String c s')
  | _ => digits_value 0 s
  end.

Definition sample_float_of_str (s : string) : option Qc :=
  Qc_of_Z <$> sample_int_of_str s.

(** The HTTP status of a response; an exception that leaves the view has
    none of the view's making. *)
Definition status_of (r : response) : option Z :=
  match r with
  | Json status _ => Some status
  | Unhandled _ => None
  end.

(** A model stubbed to predict 50000 for every input. *)
Definition stub_model : predictor :=
  {| predict := fun _ _ _ _ => ret (flt 50000);
     feature_names_in_ := Some ["year"; "km_driven"; "ex_showroom_price"; "age"] |}.

(** The application after a start-up that found and loaded the model. *)
Definition loaded_server : server := startup true true (inr stub_model).

(** The application after a start-up that found no model file. *)
Definition unloaded_server : server := startup true false (inl "").

(** The example payload of the endpoint's docstring, without the optional
    keys. *)
Definition example_payload : pyval :=
  PDict [("year", PInt 2018); ("km_driven", PInt 15000);
         ("ex_showroom_price", PInt 85000)].

(** The same request as a form submission. *)
Definition example_form : list (string * string) :=
  [("year", "2018"); ("km_driven", "15000"); ("ex_showroom_price", "85000")].



(** The keys of [keys] that the object [d] lacks, in the order of [keys]. *)
Definition lacking (d : list (string * pyval)) (keys : list string) : list string :=
  List.filter (fun k => negb (has_key d k)) keys.

(** A value on which the [if v: v.lower()] of the adjuster does not raise:
    a string, or anything false in a condition. *)
Definition lowerable (v : pyval) : bool :=
  match v with
  | PStr _ => true
  | _ => negb (truthy v)
  end.

(** The JSON object that carries the fields of a form, each as a string,
    for a form that names no field twice (of a repeated field the form
    handler reads the first value, a parsed JSON object keeps the last). *)
Definition json_of_form (form : list (string * string)) : list (string * pyval) :=
  List.map (fun '(k, v) => (k, PStr v)) form.

(** The page [index] renders for a successful prediction. *)
Definition result_page (pred adjusted : Qc) (bd : gmap string Qc) : page :=
  {| prediction := Some pred; adjusted_prediction := Some adjusted;
     breakdown := Some bd; error := None |}.

(** The page [index] renders for an error raised before the prediction. *)
Definition error_page (msg : message) : page :=
  {| prediction := None; adjusted_prediction := None; breakdown := None;
     error := Some msg |}.

(** * Facts about numbers and strings *)

Example sample_int_of_str_2018 : sample_int_of_str "2018" = Some 2018.
Proof. reflexivity. Qed.

Example sample_int_of_str_negative : sample_int_of_str "-1" = Some (-1).
Proof. reflexivity. Qed.

Example sample_int_of_str_abc : sample_int_of_str "abc" = None.
Proof. reflexivity. Qed.

Example str_lower_mixed : str_lower "Royal Enfield 350" = "royal enfield 350".
Proof. reflexivity. Qed.

Example contains_inside : contains "honda" "hero honda splendor" = true.
Proof. reflexivity. Qed.

Example contains_absent : contains "royal" "hero honda splendor" = false.
Proof. reflexivity. Qed.

Lemma flt_eq (p q : Q) : Qeq p q -> flt p = flt q.
Proof. intros H. apply Qc_is_canon. unfold flt. simpl. now rewrite H. Qed.

Lemma flt_one : flt 1.0 = 1%Qc.
Proof. apply Qc_is_canon. reflexivity. Qed.

Lemma Qcltb_lt (a b : Qc) : Qcltb a b = true <-> (a < b)%Qc.
Proof.
  unfold Qcltb. rewrite Qclt_alt.
  destruct (a ?= b)%Qc; split; congruence.
Qed.

Lemma Qcltb_ge (a b : Qc) : Qcltb a b = false <-> (b <= a)%Qc.
Proof.
  split; intros H.
  - apply Qcnot_lt_le. intros Hlt. apply Qcltb_lt in Hlt. congruence.
  - destruct (Qcltb a b) eqn:E; [|reflexivity].
    apply Qcltb_lt in E. exfalso. exact (Qcle_not_lt _ _ H E).
Qed.

Lemma Qcleb_le (a b : Qc) : Qcleb a b = true <-> (a <= b)%Qc.
Proof.
  unfold Qcleb. rewrite Qcle_alt.
  destruct (a ?= b)%Qc; split; congruence.
Qed.






Lemma str_lower_empty (s : string) : str_lower s = "" <-> s = "".
Proof. destruct s; simpl; split; congruence. Qed.

Lemma truthy_str (s : string) : truthy (PStr s) = negb (String.eqb s "").
Proof. reflexivity. Qed.

Lemma eqb_empty_false (s : string) : s <> "" -> String.eqb s "" = false.
Proof. intros H. now apply String.eqb_neq. Qed.

(** * The adjuster in closed form *)

#[local] Arguments first_keyword : simpl never.

Lemma lookup_put_ne (k k' : string) (o : option Qc) (bd : gmap string Qc) :
  k <> k' -> put k o bd !! k' = bd !! k'.
Proof. intros H. destruct o; simpl; [by rewrite lookup_insert_ne|done]. Qed.

Lemma lookup_put_eq (k : string) (o : option Qc) (bd : gmap string Qc) :
  bd !! k = None -> put k o bd !! k = o.
Proof. intros H. destruct o; simpl; [by rewrite lookup_insert_eq|done]. Qed.

(** Each step either raises or multiplies in the factor that applies and
    records it. *)
Ltac step_cases v s :=
  destruct v as [|[]|[]|q|s|[]|[]]; simpl;
  try discriminate;
  try (intros [= <-]; by rewrite Qcmult_1_r);
  try (destruct (negb (Qc_eq_bool q (flt 0))); simpl;
       [discriminate|intros [= <-]; by rewrite Qcmult_1_r]).

Lemma owner_step_factor (owner : pyval) (m : Qc) (bd : gmap string Qc) (st : adj_state) :
  owner_step owner (m, bd) = inr st ->
  st = ((m * default 1 (owner_factor owner))%Qc,
        put "owner_multiplier" (owner_factor owner) bd).
Proof.
  unfold owner_step, owner_factor, table_factor, ret.
  step_cases owner s.
  destruct (String.eqb s ""); simpl; intros [= <-]; [by rewrite Qcmult_1_r|done].
Qed.

Lemma seller_step_factor (seller_type : pyval) (m : Qc) (bd : gmap string Qc)
    (st : adj_state) :
  seller_step seller_type (m, bd) = inr st ->
  st = ((m * default 1 (seller_factor seller_type))%Qc,
        put "seller_multiplier" (seller_factor seller_type) bd).
Proof.
  unfold seller_step, seller_factor, table_factor, ret.
  step_cases seller_type s.
  destruct (String.eqb s ""); simpl; intros [= <-]; [by rewrite Qcmult_1_r|done].
Qed.

Lemma km_step_factor (km_driven : option Qc) (m : Qc) (bd : gmap string Qc) :
  km_step km_driven (m, bd) =
  ((m * default 1 (km_mult <$> km_driven))%Qc,
   put "km_multiplier" (km_mult <$> km_driven) bd).
Proof. destruct km_driven; simpl; [done|by rewrite Qcmult_1_r]. Qed.

Lemma model_step_factor (model_name : pyval) (m : Qc) (bd : gmap string Qc)
    (st : adj_state) :
  model_step model_name (m, bd) = inr st ->
  st = ((m * default 1 (model_factor model_name))%Qc,
        put "model_multiplier" (model_factor model_name) bd).
Proof.
  unfold model_step, model_factor, table_factor, ret.
  step_cases model_name s.
  destruct (String.eqb s ""); simpl; [intros [= <-]; by rewrite Qcmult_1_r|].
  destruct (first_keyword model_map (str_lower s)); simpl; intros [= <-];
    [done|by rewrite flt_one, Qcmult_1_r].
Qed.

(** On an argument that is a string or [None] no step raises. *)
Lemma owner_step_total (o : option string) (st : adj_state) :
  exists st', owner_step (opt_str o) st = inr st'.
Proof.
  destruct st as [m bd], o as [s|]; unfold owner_step; simpl; [|by eexists].
  destruct (String.eqb s ""); simpl; by eexists.
Qed.

Lemma seller_step_total (o : option string) (st : adj_state) :
  exists st', seller_step (opt_str o) st = inr st'.
Proof.
  destruct st as [m bd], o as [s|]; unfold seller_step; simpl; [|by eexists].
  destruct (String.eqb s ""); simpl; by eexists.
Qed.

Lemma model_step_total (o : option string) (st : adj_state) :
  exists st', model_step (opt_str o) st = inr st'.
Proof.
  destruct st as [m bd], o as [s|]; unfold model_step; simpl; [|by eexists].
  destruct (String.eqb s ""); simpl; [by eexists|].
  destruct (first_keyword model_map (str_lower s)); by eexists.
Qed.

(** Whenever the adjuster returns with adjustments on, it returns the closed
    form. *)
Lemma apply_heuristics_assembled (base_pred : Qc) (owner seller_type model_name : pyval)
    (km_driven : option Qc) (r : Qc * gmap string Qc) :
  apply_heuristics base_pred owner seller_type model_name km_driven true = inr r ->
  r = assembled base_pred (owner_factor owner) (seller_factor seller_type)
        (km_mult <$> km_driven) (model_factor model_name).
Proof.
  unfold apply_heuristics. simpl negb. cbv iota.
  destruct (owner_step owner _) as [e|[m1 bd1]] eqn:Ho; [discriminate|].
  apply owner_step_factor in Ho. injection Ho as -> ->.
  unfold bind at 1.
  destruct (seller_step seller_type _) as [e|[m2 bd2]] eqn:Hs; [discriminate|].
  apply seller_step_factor in Hs. injection Hs as -> ->.
  unfold bind at 1. rewrite km_step_factor.
  destruct (model_step model_name _) as [e|[m3 bd3]] eqn:Hm; [discriminate|].
  apply model_step_factor in Hm. injection Hm as -> ->.
  unfold bind, ret. intros [= <-]. unfold assembled.
  rewrite flt_one, Qcmult_1_l. reflexivity.
Qed.

(** With string (or absent) arguments the adjuster returns. *)
Lemma apply_heuristics_total (base_pred : Qc) (owner seller_type model_name : option string)
    (km_driven : option Qc) :
  apply_heuristics base_pred (opt_str owner) (opt_str seller_type) (opt_str model_name)
    km_driven true
  = inr (assembled base_pred (owner_factor (opt_str owner))
           (seller_factor (opt_str seller_type)) (km_mult <$> km_driven)
           (model_factor (opt_str model_name))).
Proof.
  destruct (apply_heuristics base_pred (opt_str owner) (opt_str seller_type)
              (opt_str model_name) km_driven true) as [e|r] eqn:E.
  - exfalso. revert E. unfold apply_heuristics. simpl negb. cbv iota.
    destruct (owner_step_total owner (flt 1.0, {[ "base" := base_pred ]})) as [st1 ->].
    unfold bind at 1.
    destruct (seller_step_total seller_type st1) as [st2 ->].
    unfold bind at 1.
    destruct (model_step_total model_name (km_step km_driven st2)) as [[m3 bd3] ->].
    discriminate.
  - f_equal. by apply apply_heuristics_assembled.
Qed.

(** What the closed form holds under each key. *)
Section AssembledLookups.

Variables (base_pred : Qc) (fo fs fk fm : option Qc).

Let total : Qc := (default 1 fo * default 1 fs * default 1 fk * default 1 fm)%Qc.

Ltac skip_keys :=
  unfold assembled;
  repeat first [ rewrite lookup_insert_ne by done
               | rewrite lookup_put_ne by done ].

Lemma assembled_total :
  (assembled base_pred fo fs fk fm).2 !! "total_multiplier" = Some total.
Proof. unfold assembled. simpl. by rewrite lookup_insert_eq. Qed.

Lemma assembled_adjusted :
  (assembled base_pred fo fs fk fm).2 !! "adjusted" = Some (base_pred * total)%Qc.
Proof. simpl. skip_keys. by rewrite lookup_insert_eq. Qed.

Lemma assembled_model :
  (assembled base_pred fo fs fk fm).2 !! "model_multiplier" = fm.
Proof. simpl. skip_keys. apply lookup_put_eq. by skip_keys. Qed.

Lemma assembled_km :
  (assembled base_pred fo fs fk fm).2 !! "km_multiplier" = fk.
Proof. simpl. skip_keys. apply lookup_put_eq. by skip_keys. Qed.

Lemma assembled_seller :
  (assembled base_pred fo fs fk fm).2 !! "seller_multiplier" = fs.
Proof. simpl. skip_keys. apply lookup_put_eq. by skip_keys. Qed.

Lemma assembled_owner :
  (assembled base_pred fo fs fk fm).2 !! "owner_multiplier" = fo.
Proof. simpl. skip_keys. by apply lookup_put_eq. Qed.

Lemma assembled_base :
  (assembled base_pred fo fs fk fm).2 !! "base" = Some base_pred.
Proof. simpl. skip_keys. by rewrite lookup_singleton_eq. Qed.

End AssembledLookups.

Lemma recorded_assembled (key : string) (r : Qc * gmap string Qc) :
  recorded key (inr r) = r.2 !! key.
Proof. by destruct r. Qed.

(** * The properties of the adjuster

    The adjuster is dynamically typed.  Where a property speaks of the
    optional strings, the arguments range over [opt_str o], a string
    (possibly empty) or [None]; on such arguments the adjuster always
    returns ([apply_heuristics_total]).  A non-empty list, a number other
    than zero or [true] in their place makes [.lower()] raise. *)

Example apply_heuristics_owner_not_a_string :
  apply_heuristics (flt 50000) (PInt 1) PNone PNone None true
  = inl (AttributeError (PInt 1) "lower").
Proof. reflexivity. Qed.

(** C4.  With [apply_adjustments] false the adjuster returns the base
    prediction itself and a breakdown whose only key is [base], mapped to the
    base prediction, whatever the other arguments are. *)
Theorem adjustments_off_returns_base (base_pred : Qc)
    (owner seller_type model_name : pyval) (km_driven : option Qc) :
  apply_heuristics base_pred owner seller_type model_name km_driven false
  = inr (base_pred, {[ "base" := base_pred ]}).
Proof. reflexivity. Qed.

Lemma km_mult_bands (km : Qc) :
  ((flt 50000 < km)%Qc -> km_mult km = flt 0.88) /\
  ((flt 30000 < km)%Qc -> (km <= flt 50000)%Qc -> km_mult km = flt 0.95) /\
  ((km < flt 15000)%Qc -> km_mult km = flt 1.03) /\
  ((flt 15000 <= km)%Qc -> (km <= flt 30000)%Qc -> km_mult km = flt 1.0).
Proof.
  unfold km_mult. repeat split.
  - intros H. apply Qcltb_lt in H. by rewrite H.
  - intros H1 H2. apply Qcltb_lt in H1. apply Qcltb_ge in H2. by rewrite H2, H1.
  - intros H.
    assert (H3 : (km <= flt 30000)%Qc).
    { apply Qclt_le_weak, (Qclt_trans _ _ _ H). reflexivity. }
    assert (H5 : (km <= flt 50000)%Qc).
    { apply Qclt_le_weak, (Qclt_trans _ _ _ H). reflexivity. }
    apply Qcltb_ge in H3, H5. apply Qcltb_lt in H. by rewrite H5, H3, H.
  - intros H1 H2.
    assert (H5 : (km <= flt 50000)%Qc).
    { apply (Qcle_trans _ _ _ H2). discriminate. }
    apply Qcltb_ge in H1, H2, H5. by rewrite H5, H2, H1.
Qed.

Lemma recorded_km (base_pred : Qc) (owner seller_type model_name : option string)
    (km_driven : option Qc) :
  recorded "km_multiplier"
    (apply_heuristics base_pred (opt_str owner) (opt_str seller_type)
       (opt_str model_name) km_driven true)
  = km_mult <$> km_driven.
Proof. by rewrite apply_heuristics_total, recorded_assembled, assembled_km. Qed.

(** C2.  With adjustments on and [km_driven] provided (zero included), the
    breakdown records under [km_multiplier] the factor of the ordered step
    function: above 50000 it is 0.88; otherwise above 30000 it is 0.95;
    otherwise below 15000 it is 1.03; otherwise (15000 to 30000) it is 1.00.
    In particular 50001 gives 0.88, 50000 gives 0.95, 30001 gives 0.95, 30000
    gives 1.00, 14999 gives 1.03, 15000 gives 1.00 and 0 gives 1.03. *)
Theorem km_factor_step_function (base_pred : Qc)
    (owner seller_type model_name : option string) :
  let run km :=
    recorded "km_multiplier"
      (apply_heuristics base_pred (opt_str owner) (opt_str seller_type)
         (opt_str model_name) (Some km) true) in
  (forall km : Qc,
     exists f : Qc, run km = Some f /\
       ((flt 50000 < km)%Qc -> f = flt 0.88) /\
       ((flt 30000 < km)%Qc -> (km <= flt 50000)%Qc -> f = flt 0.95) /\
       ((km < flt 15000)%Qc -> f = flt 1.03) /\
       ((flt 15000 <= km)%Qc -> (km <= flt 30000)%Qc -> f = flt 1.0)) /\
  run (flt 50001) = Some (flt 0.88) /\
  run (flt 50000) = Some (flt 0.95) /\
  run (flt 30001) = Some (flt 0.95) /\
  run (flt 30000) = Some (flt 1.0) /\
  run (flt 14999) = Some (flt 1.03) /\
  run (flt 15000) = Some (flt 1.0) /\
  run (flt 0) = Some (flt 1.03).
Proof.
  intros run. subst run. cbv beta.
  rewrite !recorded_km. split.
  - intros km. exists (km_mult km). rewrite recorded_km.
    split; [done|apply km_mult_bands].
  - repeat split; reflexivity.
Qed.

(** The step function at work on a reading of 50001 km. *)
Lemma km_factor_step_function_witness :
  (flt 50000 < flt 50001)%Qc /\
  recorded "km_multiplier"
    (apply_heuristics (flt 50000) (opt_str (Some "1st owner")) (opt_str None)
       (opt_str None) (Some (flt 50001)) true) = Some (flt 0.88).
Proof.
  split; [reflexivity|].
  destruct (km_factor_step_function (flt 50000) (Some "1st owner") None None)
    as [Hbands _].
  destruct (Hbands (flt 50001)) as [f [Hrun [H _]]].
  rewrite Hrun. f_equal. apply H. reflexivity.
Defined.









Lemma recorded_owner (base_pred : Qc) (owner seller_type model_name : option string)
    (km_driven : option Qc) :
  recorded "owner_multiplier"
    (apply_heuristics base_pred (opt_str owner) (opt_str seller_type)
       (opt_str model_name) km_driven true)
  = owner_factor (opt_str owner).
Proof. by rewrite apply_heuristics_total, recorded_assembled, assembled_owner. Qed.

Lemma owner_map_other (key : string) :
  ~ In key ["1st owner"; "2nd owner"; "3rd owner"; "4th owner"] ->
  get_or_one owner_map key = flt 1.0.
Proof.
  intros H. unfold get_or_one, owner_map.
  rewrite !lookup_insert_ne, lookup_empty; [done|..];
    intros <-; apply H; simpl; tauto.
Qed.

(** Strings with the same lower-casing are both empty or both non-empty. *)
Lemma str_lower_eqb_empty (a b : string) :
  str_lower a = str_lower b -> String.eqb a "" = String.eqb b "".
Proof. destruct a, b; simpl; congruence. Qed.

(** C5.  With adjustments on and a non-empty [owner], the factor recorded as
    [owner_multiplier] is looked up by the lower-cased string in the table
    1st owner 1.05, 2nd owner 0.98, 3rd owner 0.94, 4th owner 0.90, and is
    1.0 for any other value; owners that differ only in case give the same
    result, as "1ST OWNER" and "1st owner" do; "5th owner" records 1.0; and
    for an empty or absent owner no [owner_multiplier] is recorded. *)
Theorem owner_factor_case_insensitive (base_pred : Qc)
    (seller_type model_name : option string) (km_driven : option Qc) :
  let run owner :=
    apply_heuristics base_pred (opt_str owner) (opt_str seller_type)
      (opt_str model_name) km_driven true in
  (forall owner : string,
     owner <> "" ->
     exists f : Qc, recorded "owner_multiplier" (run (Some owner)) = Some f /\
       (str_lower owner = "1st owner" -> f = flt 1.05) /\
       (str_lower owner = "2nd owner" -> f = flt 0.98) /\
       (str_lower owner = "3rd owner" -> f = flt 0.94) /\
       (str_lower owner = "4th owner" -> f = flt 0.90) /\
       (~ In (str_lower owner) ["1st owner"; "2nd owner"; "3rd owner"; "4th owner"] ->
        f = flt 1.0)) /\
  (forall owner owner' : string,
     str_lower owner = str_lower owner' -> run (Some owner) = run (Some owner')) /\
  run (Some "1ST OWNER") = run (Some "1st owner") /\
  recorded "owner_multiplier" (run (Some "1ST OWNER")) = Some (flt 1.05) /\
  recorded "owner_multiplier" (run (Some "5th owner")) = Some (flt 1.0) /\
  recorded "owner_multiplier" (run (Some "")) = None /\
  recorded "owner_multiplier" (run None) = None.
Proof.
  intros run. subst run. cbv beta.
  assert (Hcase : forall owner owner' : string,
            str_lower owner = str_lower owner' ->
            owner_factor (PStr owner) = owner_factor (PStr owner')).
  { intros owner owner' H. unfold owner_factor, table_factor.
    by rewrite (str_lower_eqb_empty _ _ H), H. }
  split; [|split; [|split]].
  - intros owner Hne. rewrite recorded_owner.
    exists (get_or_one owner_map (str_lower owner)). split.
    + unfold owner_factor, table_factor. cbn [opt_str]. by rewrite eqb_empty_false.
    + repeat split; try (intros ->; reflexivity). apply owner_map_other.
  - intros owner owner' H. rewrite !apply_heuristics_total.
    cbn [opt_str]. by rewrite (Hcase _ _ H).
  - rewrite !apply_heuristics_total. cbn [opt_str].
    by rewrite (Hcase "1ST OWNER" "1st owner" eq_refl).
  - rewrite !recorded_owner. repeat split; reflexivity.
Qed.

(** An owner given in mixed case. *)
Lemma owner_factor_case_insensitive_witness :
  "2Nd Owner" <> "" /\ str_lower "2Nd Owner" = "2nd owner" /\
  recorded "owner_multiplier"
    (apply_heuristics (flt 50000) (opt_str (Some "2Nd Owner")) (opt_str None)
       (opt_str None) None true) = Some (flt 0.98).
Proof.
  split; [discriminate|]. split; [reflexivity|].
  destruct (owner_factor_case_insensitive (flt 50000) None None None) as [Htable _].
  destruct (Htable "2Nd Owner") as [f [Hrec [_ [H2 _]]]]; [discriminate|].
  rewrite Hrec. f_equal. apply H2. reflexivity.
Defined.

(** C6.  A base prediction of 50000 with owner "1st owner" and 15000 km,
    adjustments on, no seller type and no model name: the owner factor is
    1.05, the distance factor 1.00 (15000 is in the default band), the total
    multiplier 1.05 and the adjusted prediction 52500. *)
Theorem scenario_first_owner_15000_km :
  apply_heuristics (flt 50000) (PStr "1st owner") PNone PNone (Some (flt 15000)) true
  = inr (flt 52500,
         <["total_multiplier" := flt 1.05]>
         (<["adjusted" := flt 52500]>
         (<["km_multiplier" := flt 1.0]>
         (<["owner_multiplier" := flt 1.05]> {[ "base" := flt 50000 ]})))).
Proof.
  rewrite (apply_heuristics_total (flt 50000) (Some "1st owner") None None).
  unfold assembled.
  change (owner_factor (opt_str (Some "1st owner"))) with (Some (flt 1.05)).
  change (seller_factor (opt_str None)) with (@None Qc).
  change (model_factor (opt_str None)) with (@None Qc).
  change (km_mult <$> Some (flt 15000)) with (Some (flt 1.0)).
  cbn [default from_option id put].
  assert (Htotal : (flt 1.05 * 1 * flt 1.0 * 1)%Qc = flt 1.05)
    by (apply Qc_is_canon; reflexivity).
  assert (Hadj : (flt 50000 * flt 1.05)%Qc = flt 52500)
    by (apply Qc_is_canon; reflexivity).
  by rewrite Htotal, Hadj.
Qed.

(** C8.  With adjustments on, the recorded [total_multiplier] is the product
    of the factors recorded under [owner_multiplier], [seller_multiplier],
    [km_multiplier] and [model_multiplier], an absent key counting as 1.0,
    and the adjusted value, returned and recorded, is the base prediction
    times that total. *)
Theorem total_is_product_of_recorded_factors (base_pred : Qc)
    (owner seller_type model_name : option string) (km_driven : option Qc) :
  exists (adjusted total : Qc) (bd : gmap string Qc),
    apply_heuristics base_pred (opt_str owner) (opt_str seller_type)
      (opt_str model_name) km_driven true = inr (adjusted, bd) /\
    bd !! "total_multiplier" = Some total /\
    total = (factor_or_one bd "owner_multiplier"
             * factor_or_one bd "seller_multiplier"
             * factor_or_one bd "km_multiplier"
             * factor_or_one bd "model_multiplier")%Qc /\
    bd !! "adjusted" = Some adjusted /\
    adjusted = (base_pred * total)%Qc.
Proof.
  rewrite apply_heuristics_total.
  set (fo := owner_factor (opt_str owner)).
  set (fs := seller_factor (opt_str seller_type)).
  set (fk := km_mult <$> km_driven).
  set (fm := model_factor (opt_str model_name)).
  exists (assembled base_pred fo fs fk fm).1,
         (default 1 fo * default 1 fs * default 1 fk * default 1 fm)%Qc,
         (assembled base_pred fo fs fk fm).2.
  split; [by destruct (assembled base_pred fo fs fk fm)|].
  split; [apply assembled_total|].
  split; [|split; [apply assembled_adjusted|reflexivity]].
  unfold factor_or_one.
  by rewrite assembled_owner, assembled_seller, assembled_km, assembled_model, flt_one.
Qed.

(** C9.  The cumulative multiplier does not depend on the base prediction:
    with adjustments on and the optional arguments fixed, adjusting [k] times
    a base prediction gives [k] times the adjusted prediction of that base,
    and the same [total_multiplier]. *)
Theorem adjustment_scales_with_base (k base_pred : Qc)
    (owner seller_type model_name : option string) (km_driven : option Qc) :
  exists (adjusted total : Qc) (bd bd' : gmap string Qc),
    apply_heuristics base_pred (opt_str owner) (opt_str seller_type)
      (opt_str model_name) km_driven true = inr (adjusted, bd) /\
    apply_heuristics (k * base_pred)%Qc (opt_str owner) (opt_str seller_type)
      (opt_str model_name) km_driven true = inr ((k * adjusted)%Qc, bd') /\
    bd !! "total_multiplier" = Some total /\
    bd' !! "total_multiplier" = Some total.
Proof.
  rewrite !apply_heuristics_total.
  set (fo := owner_factor (opt_str owner)).
  set (fs := seller_factor (opt_str seller_type)).
  set (fk := km_mult <$> km_driven).
  set (fm := model_factor (opt_str model_name)).
  exists (assembled base_pred fo fs fk fm).1,
         (default 1 fo * default 1 fs * default 1 fk * default 1 fm)%Qc,
         (assembled base_pred fo fs fk fm).2,
         (assembled (k * base_pred)%Qc fo fs fk fm).2.
  split; [by destruct (assembled base_pred fo fs fk fm)|].
  split; [|split; apply assembled_total].
  unfold assembled. cbn [fst snd]. by rewrite (Qcmult_assoc k base_pred).
Qed.

(** C10.  With adjustments on but no owner, seller type or model name (empty
    or absent) and no [km_driven], the adjuster returns the base prediction
    and a breakdown with exactly the keys [base], [adjusted] and
    [total_multiplier], the total being 1.0: no per-factor key is recorded. *)
Theorem no_factor_leaves_base (base_pred : Qc) (owner seller_type model_name : pyval) :
  truthy owner = false -> truthy seller_type = false -> truthy model_name = false ->
  exists bd : gmap string Qc,
    apply_heuristics base_pred owner seller_type model_name None true
    = inr (base_pred, bd) /\
    bd = <["total_multiplier" := flt 1.0]>
         (<["adjusted" := base_pred]> {[ "base" := base_pred ]}) /\
    dom bd = ({[ "base"; "adjusted"; "total_multiplier" ]} : gset string).
Proof.
  intros Ho Hs Hm. eexists. split; [|split; [reflexivity|]].
  - unfold apply_heuristics, owner_step, seller_step, model_step, km_step.
    rewrite Ho, Hs, Hm. cbn [negb bind ret]. by rewrite flt_one, Qcmult_1_r.
  - rewrite !dom_insert_L, dom_singleton_L. set_solver.
Qed.

(** Absent owner and seller type, empty model name. *)
Lemma no_factor_leaves_base_witness :
  exists bd : gmap string Qc,
    apply_heuristics (flt 50000) PNone PNone (PStr "") None true
    = inr (flt 50000, bd) /\
    bd !! "total_multiplier" = Some (flt 1.0) /\
    bd !! "owner_multiplier" = None.
Proof.
  destruct (no_factor_leaves_base (flt 50000) PNone PNone (PStr "")
              eq_refl eq_refl eq_refl) as [bd [Hrun [-> _]]].
  exists (<["total_multiplier" := flt 1.0]>
          (<["adjusted" := flt 50000]> {[ "base" := flt 50000 ]})).
  split; [exact Hrun|]. split; reflexivity.
Defined.

(** * The request handlers *)

Section HandlerFacts.

Variable int_of_str : string -> option Z.
Variable float_of_str : string -> option Qc.
Variable CURRENT_YEAR : Z.

Local Abbreviation to_int := (py_int int_of_str).
Local Abbreviation to_float := (py_float float_of_str).
Local Abbreviation api := (predict_api int_of_str float_of_str CURRENT_YEAR).
Local Abbreviation api_try := (predict_api_try int_of_str float_of_str CURRENT_YEAR).
Local Abbreviation form_page := (index int_of_str float_of_str CURRENT_YEAR).

(** On an object the comprehension is a filter and cannot raise. *)
Lemma missing_keys_dict (keys : list string) (d : list (string * pyval)) :
  missing_keys keys (PDict d) = inr (lacking d keys).
Proof.
  induction keys as [|k keys IH]; [done|].
  cbn [missing_keys py_in]. unfold ret at 1, bind at 1. rewrite IH.
  unfold bind, ret, lacking. cbn [List.filter]. by destruct (has_key d k).
Qed.

Lemma lacking_none (d : list (string * pyval)) (vy vk vp : pyval) :
  dict_get d "year" = Some vy ->
  dict_get d "km_driven" = Some vk ->
  dict_get d "ex_showroom_price" = Some vp ->
  lacking d required = [].
Proof.
  intros Hy Hk Hp. unfold lacking, required, has_key. cbn [List.filter].
  by rewrite Hy, Hk, Hp.
Qed.

Lemma lacking_all_present (d : list (string * pyval)) :
  lacking d required = [] ->
  exists vy vk vp,
    dict_get d "year" = Some vy /\
    dict_get d "km_driven" = Some vk /\
    dict_get d "ex_showroom_price" = Some vp.
Proof.
  unfold lacking, required, has_key. cbn [List.filter].
  destruct (dict_get d "year") as [vy|]; [|discriminate].
  destruct (dict_get d "km_driven") as [vk|]; [|discriminate].
  destruct (dict_get d "ex_showroom_price") as [vp|]; [|discriminate].
  intros _. by exists vy, vk, vp.
Qed.

Lemma truthy_dict (d : list (string * pyval)) : d <> [] -> truthy (PDict d) = true.
Proof. by destruct d. Qed.

(** A complete object reaches the [try] block. *)
Lemma predict_api_complete (srv : server) (d : list (string * pyval)) (vy vk vp : pyval) :
  dict_get d "year" = Some vy ->
  dict_get d "km_driven" = Some vk ->
  dict_get d "ex_showroom_price" = Some vp ->
  api srv (PDict d)
  = match api_try srv (PDict d) with
    | inl e => Json 500 (ErrorBody (str_exn e))
    | inr resp => resp
    end.
Proof.
  intros Hy Hk Hp. unfold predict_api.
  rewrite truthy_dict by (intros ->; discriminate).
  cbn [negb]. by rewrite missing_keys_dict, (lacking_none d vy vk vp).
Qed.

(** The [try] block on a complete object, after the three lookups. *)
Lemma predict_api_try_complete (srv : server) (d : list (string * pyval))
    (vy vk vp : pyval) :
  dict_get d "year" = Some vy ->
  dict_get d "km_driven" = Some vk ->
  dict_get d "ex_showroom_price" = Some vp ->
  api_try srv (PDict d)
  = (do year <- to_int vy ;
     do km_driven <- to_float vk ;
     do ex_showroom_price <- to_float vp ;
     if (year <? 1900) || (CURRENT_YEAR <? year) then
       ret (Json 400 (ErrorBody (Text "Invalid year")))
     else if Qcltb km_driven (flt 0) then
       ret (Json 400 (ErrorBody (Text "Invalid km_driven")))
     else if Qcleb ex_showroom_price (flt 0) then
       ret (Json 400 (ErrorBody (Text "Invalid ex_showroom_price")))
     else
       do pred <- model_predict srv year km_driven ex_showroom_price
                    (CURRENT_YEAR - year) ;
       do '(adjusted, bd) <-
         apply_heuristics pred (default PNone (dict_get d "owner"))
           (default PNone (dict_get d "seller_type"))
           (default PNone (dict_get d "model_name")) (Some km_driven)
           (truthy (default (PBool false) (dict_get d "apply_adjustments"))) ;
       ret (Json 200 (PredictionBody pred adjusted bd))).
Proof.
  intros Hy Hk Hp. unfold predict_api_try, py_getitem, py_get.
  rewrite Hy, Hk, Hp. reflexivity.
Qed.






(** A payload that is false in a condition ([null], [false], [0], [""],
    [[]], [{}]) is answered 400 before anything else is looked at. *)
Lemma predict_api_no_payload (srv : server) (data : pyval) :
  truthy data = false ->
  api srv data = Json 400 (ErrorBody (Text "No JSON payload provided")).
Proof. intros H. unfold predict_api. by rewrite H. Qed.

(** A number or [true] as payload: the membership test raises outside the
    [try], and the exception leaves the view. *)
Lemma predict_api_scalar_payload (srv : server) (z : Z) :
  z <> 0 -> api srv (PInt z) = Unhandled (TypeError "in" (PInt z)).
Proof.
  intros H. unfold predict_api. cbn [truthy].
  apply Z.eqb_neq in H. by rewrite H.
Qed.

(** ** Without a model *)

(** A start-up that leaves [model_loaded] false leaves no model and records
    why; one that sets it has a model. *)
Lemma startup_states (cors path_exists : bool) (loaded : string + predictor) :
  let srv := startup cors path_exists loaded in
  (model_loaded srv = false /\ model srv = None /\ exists msg, load_error srv = Some msg)
  \/ (model_loaded srv = true /\ exists m, model srv = Some m).
Proof.
  destruct path_exists, loaded as [msg|m]; simpl; eauto 7.
Qed.

(** The form page has the guard: a POST without a model renders the
    "Model not loaded" error and nothing else. *)
Lemma index_without_model (srv : server) (form : list (string * string)) :
  model_loaded srv = false ->
  form_page srv POST form
  = {| prediction := None; adjusted_prediction := None; breakdown := None;
       error := Some (Text ("Model not loaded: " +:+ format_opt (load_error srv))) |}.
Proof. intros H. unfold index. by rewrite H. Qed.

(** The health probe reports the missing model and the reason. *)
Lemma health_without_model (cors path_exists : bool) (loaded : string + predictor) :
  let srv := startup cors path_exists loaded in
  model_loaded srv = false ->
  h_model_loaded (health srv) = false /\
  exists msg, h_load_error (health srv) = Some msg.
Proof.
  destruct path_exists, loaded as [msg|m]; simpl; intros H;
    try discriminate; eauto.
Qed.

(** The JSON endpoint has no such guard: a valid request without a model
    reaches [model.predict] on [None], and the [AttributeError] is answered
    as a 500. *)
Lemma predict_api_without_model (srv : server) (d : list (string * pyval))
    (vy vk vp : pyval) (y : Z) (km price : Qc) :
  model srv = None ->
  dict_get d "year" = Some vy ->
  dict_get d "km_driven" = Some vk ->
  dict_get d "ex_showroom_price" = Some vp ->
  to_int vy = inr y -> to_float vk = inr km -> to_float vp = inr price ->
  1900 <= y <= CURRENT_YEAR -> (flt 0 <= km)%Qc -> (flt 0 < price)%Qc ->
  api srv (PDict d) = Json 500 (ErrorBody (StrOf (AttributeError PNone "predict"))).
Proof.
  intros Hm Hy Hk Hp Ey Ek Ep [Hlo Hhi] Hkm Hprice.
  rewrite (predict_api_complete srv d vy vk vp Hy Hk Hp).
  rewrite (predict_api_try_complete srv d vy vk vp Hy Hk Hp).
  rewrite Ey, Ek, Ep. cbn [bind].
  assert (E : (y <? 1900) || (CURRENT_YEAR <? y) = false).
  { apply orb_false_iff. split; apply Z.ltb_ge; lia. }
  apply Qcltb_ge in Hkm.
  assert (Hprice' : Qcleb price (flt 0) = false).
  { destruct (Qcleb price (flt 0)) eqn:El; [|done].
    apply Qcleb_le in El. exfalso. exact (Qcle_not_lt _ _ El Hprice). }
  rewrite E, Hkm, Hprice'. unfold model_predict. by rewrite Hm.
Qed.

End HandlerFacts.

(** A year that is not a number: [int] raises inside the [try], and the
    catch-all answers 500 where the range checks beside it answer 400. *)
Lemma non_numeric_year_answers_500 :
  let resp :=
    predict_api sample_int_of_str sample_float_of_str 2026 loaded_server
      (PDict [("year", PStr "abc"); ("km_driven", PInt 15000);
              ("ex_showroom_price", PInt 85000)]) in
  resp = Json 500 (ErrorBody (StrOf (ValueError "int" (PStr "abc")))) /\
  status_of resp <> Some 400.
Proof. split; [reflexivity|discriminate]. Qed.



(** C7, on the code.  After a start-up that found no model file, the form page
    answers a POST with "Model not loaded: ...", and the health probe reports
    [model_loaded] false with the reason; the JSON endpoint answers the same
    request with the [AttributeError] of [model.predict] on [None] as a 500,
    and a request with an invalid year with the 400 of the range check,
    without a word on the model. *)
Theorem predict_api_lacks_model_guard :
  let reason :=
    "Model file not found at best_bike_price_model.pkl. Run the training notebook to create it." in
  model_loaded unloaded_server = false /\
  error (index sample_int_of_str sample_float_of_str 2026 unloaded_server POST
           example_form)
  = Some (Text ("Model not loaded: " +:+ reason)) /\
  h_model_loaded (health unloaded_server) = false /\
  h_load_error (health unloaded_server) = Some reason /\
  predict_api sample_int_of_str sample_float_of_str 2026 unloaded_server
    example_payload
  = Json 500 (ErrorBody (StrOf (AttributeError PNone "predict"))) /\
  predict_api sample_int_of_str sample_float_of_str 2026 unloaded_server
    (PDict [("year", PInt 1800); ("km_driven", PInt 15000);
            ("ex_showroom_price", PInt 85000)])
  = Json 400 (ErrorBody (Text "Invalid year")).
Proof. repeat split; reflexivity. Qed.

(** The scenario of C6 end to end: the docstring's request, with owner and
    adjustments, sent to the JSON endpoint of a server whose model is stubbed
    to predict 50000. *)
Example end_to_end_scenario :
  predict_api sample_int_of_str sample_float_of_str 2026 loaded_server
    (PDict [("year", PInt 2018); ("km_driven", PInt 15000);
            ("ex_showroom_price", PInt 85000); ("owner", PStr "1st owner");
            ("apply_adjustments", PBool true)])
  = Json 200
      (PredictionBody (flt 50000) (flt 52500)
         (<["total_multiplier" := flt 1.05]>
          (<["adjusted" := flt 52500]>
          (<["km_multiplier" := flt 1.0]>
          (<["owner_multiplier" := flt 1.05]> {[ "base" := flt 50000 ]}))))).
Proof.
  erewrite predict_api_complete; [|reflexivity..].
  erewrite predict_api_try_complete; [|reflexivity..].
  change (py_float sample_float_of_str (PInt 15000))
    with (@inr exn Qc (Qc_of_Z 15000)).
  change (py_float sample_float_of_str (PInt 85000))
    with (@inr exn Qc (Qc_of_Z 85000)).
  cbn [py_int bind ret].
  change ((2018 <? 1900) || (2026 <? 2018)) with false.
  change (Qcltb (Qc_of_Z 15000) (flt 0)) with false.
  change (Qcleb (Qc_of_Z 85000) (flt 0)) with false.
  cbv iota.
  change (model_predict loaded_server 2018 (Qc_of_Z 15000) (Qc_of_Z 85000)
            (2026 - 2018)) with (@inr exn Qc (flt 50000)).
  cbn [bind dict_get String.eqb Ascii.eqb Bool.eqb default from_option id truthy].
  change (PStr "1st owner") with (opt_str (Some "1st owner")).
  change PNone with (opt_str None).
  rewrite apply_heuristics_total. unfold assembled.
  change (owner_factor (opt_str (Some "1st owner"))) with (Some (flt 1.05)).
  change (seller_factor (opt_str None)) with (@None Qc).
  change (model_factor (opt_str None)) with (@None Qc).
  change (km_mult <$> Some (Qc_of_Z 15000)) with (Some (flt 1.0)).
  cbn [default from_option id put].
  assert (Htotal : (flt 1.05 * 1 * flt 1.0 * 1)%Qc = flt 1.05)
    by (apply Qc_is_canon; reflexivity).
  assert (Hadj : (flt 50000 * flt 1.05)%Qc = flt 52500)
    by (apply Qc_is_canon; reflexivity).
  by rewrite Htotal, Hadj.
Qed.

(** * Further properties of the adjuster *)

Lemma recorded_seller (base_pred : Qc) (owner seller_type model_name : option string)
    (km_driven : option Qc) :
  recorded "seller_multiplier"
    (apply_heuristics base_pred (opt_str owner) (opt_str seller_type)
       (opt_str model_name) km_driven true)
  = seller_factor (opt_str seller_type).
Proof. by rewrite apply_heuristics_total, recorded_assembled, assembled_seller. Qed.

Lemma seller_map_other (key : string) :
  ~ In key ["individual"; "dealer"; "trustmark dealer"] ->
  get_or_one seller_map key = flt 1.0.
Proof.
  intros H. unfold get_or_one, seller_map.
  rewrite !lookup_insert_ne, lookup_empty; [done|..];
    intros <-; apply H; simpl; tauto.
Qed.

(** X1.  With adjustments on and a non-empty [seller_type], the factor
    recorded as [seller_multiplier] is the entry of the table individual 1.00,
    dealer 1.03, trustmark dealer 1.05 whose key equals the lower-cased
    string, and 1.0 when no key equals it (the match is on the whole string,
    not on a substring); seller types that differ only in case give the same
    result; for an empty or absent seller type no key is recorded. *)
Theorem seller_factor_exact_match (base_pred : Qc)
    (owner model_name : option string) (km_driven : option Qc) :
  let run seller_type :=
    apply_heuristics base_pred (opt_str owner) (opt_str seller_type)
      (opt_str model_name) km_driven true in
  (forall seller_type : string,
     seller_type <> "" ->
     exists f : Qc, recorded "seller_multiplier" (run (Some seller_type)) = Some f /\
       (str_lower seller_type = "individual" -> f = flt 1.00) /\
       (str_lower seller_type = "dealer" -> f = flt 1.03) /\
       (str_lower seller_type = "trustmark dealer" -> f = flt 1.05) /\
       (~ In (str_lower seller_type) ["individual"; "dealer"; "trustmark dealer"] ->
        f = flt 1.0)) /\
  (forall seller_type seller_type' : string,
     str_lower seller_type = str_lower seller_type' ->
     run (Some seller_type) = run (Some seller_type')) /\
  recorded "seller_multiplier" (run (Some "")) = None /\
  recorded "seller_multiplier" (run None) = None.
Proof.
  intros run. subst run. cbv beta.
  split; [|split].
  - intros seller_type Hne. rewrite recorded_seller.
    exists (get_or_one seller_map (str_lower seller_type)). split.
    + unfold seller_factor, table_factor. cbn [opt_str]. by rewrite eqb_empty_false.
    + repeat split; try (intros ->; reflexivity). apply seller_map_other.
  - intros seller_type seller_type' H. rewrite !apply_heuristics_total.
    cbn [opt_str]. unfold seller_factor, table_factor.
    by rewrite (str_lower_eqb_empty _ _ H), H.
  - rewrite !recorded_seller. split; reflexivity.
Qed.

(** "Used car dealer" holds the key [dealer] but is not equal to it. *)
Lemma seller_factor_exact_match_witness :
  "Used car dealer" <> "" /\
  ~ In (str_lower "Used car dealer") ["individual"; "dealer"; "trustmark dealer"] /\
  recorded "seller_multiplier"
    (apply_heuristics (flt 50000) (opt_str None) (opt_str (Some "Used car dealer"))
       (opt_str None) None true) = Some (flt 1.0).
Proof.
  assert (Hout : ~ In (str_lower "Used car dealer")
                   ["individual"; "dealer"; "trustmark dealer"]).
  { intros [H|[H|[H|[]]]]; discriminate. }
  split; [discriminate|]. split; [exact Hout|].
  destruct (seller_factor_exact_match (flt 50000) None None None) as [Htable _].
  destruct (Htable "Used car dealer") as [f [Hrec [_ [_ [_ Hother]]]]]; [discriminate|].
  rewrite Hrec. f_equal. by apply Hother.
Defined.

Lemma table_factor_is_Some (table : string -> Qc) (o : option string) :
  is_Some (table_factor table (opt_str o)) <-> exists s, o = Some s /\ s <> "".
Proof.
  destruct o as [s|]; cbn [opt_str table_factor].
  - destruct (String.eqb s "") eqn:E.
    + apply String.eqb_eq in E. split.
      * by intros [? ?].
      * intros [s' [[= <-] Hne]]. by destruct Hne.
    + apply String.eqb_neq in E. split; [|by eauto]. intros _. by exists s.
  - split; [by intros [? ?]|by intros [s [? ?]]].
Qed.

(** X2.  With adjustments on, the breakdown always holds [base] (the base
    prediction), [adjusted] and [total_multiplier]; it holds
    [owner_multiplier], [seller_multiplier] and [model_multiplier] exactly
    when the argument is a non-empty string, [km_multiplier] exactly when
    [km_driven] is given; and it holds no other key. *)
Theorem breakdown_keys (base_pred : Qc) (owner seller_type model_name : option string)
    (km_driven : option Qc) :
  exists (adjusted : Qc) (bd : gmap string Qc),
    apply_heuristics base_pred (opt_str owner) (opt_str seller_type)
      (opt_str model_name) km_driven true = inr (adjusted, bd) /\
    bd !! "base" = Some base_pred /\
    is_Some (bd !! "adjusted") /\
    is_Some (bd !! "total_multiplier") /\
    (is_Some (bd !! "owner_multiplier") <-> exists s, owner = Some s /\ s <> "") /\
    (is_Some (bd !! "seller_multiplier") <-> exists s, seller_type = Some s /\ s <> "") /\
    (is_Some (bd !! "km_multiplier") <-> is_Some km_driven) /\
    (is_Some (bd !! "model_multiplier") <-> exists s, model_name = Some s /\ s <> "") /\
    dom bd ⊆ ({[ "base"; "owner_multiplier"; "seller_multiplier"; "km_multiplier";
                 "model_multiplier"; "adjusted"; "total_multiplier" ]} : gset string).
Proof.
  rewrite apply_heuristics_total.
  set (fo := owner_factor (opt_str owner)).
  set (fs := seller_factor (opt_str seller_type)).
  set (fk := km_mult <$> km_driven).
  set (fm := model_factor (opt_str model_name)).
  exists (assembled base_pred fo fs fk fm).1, (assembled base_pred fo fs fk fm).2.
  split; [by destruct (assembled base_pred fo fs fk fm)|].
  rewrite assembled_base, assembled_adjusted, assembled_total, assembled_owner,
    assembled_seller, assembled_km, assembled_model.
  repeat split; try done; try apply table_factor_is_Some.
  - subst fk. by rewrite fmap_is_Some.
  - subst fk. by rewrite fmap_is_Some.
  - unfold assembled. cbn [snd]. rewrite !dom_insert.
    destruct fo, fs, fk, fm; cbn [put];
      rewrite ?dom_insert, dom_singleton; set_solver.
Qed.

(** Order facts on floats by linear arithmetic over the rationals. *)
Ltac flt_order :=
  unfold Qclt, Qcle in *;
  repeat match goal with
         | H : context [this (flt ?c)] |- _ =>
             let v := eval vm_compute in (this (flt c)) in
             change (this (flt c)) with v in H
         | |- context [this (flt ?c)] =>
             let v := eval vm_compute in (this (flt c)) in
             change (this (flt c)) with v
         end;
  lra.

(** The product of two factors within positive bounds is within the product
    of the bounds. *)
Lemma Qcmult_bounds (lo1 hi1 lo2 hi2 x y : Qc) :
  (Q2Qc 0 < lo1)%Qc -> (Q2Qc 0 < lo2)%Qc ->
  (lo1 <= x)%Qc -> (x <= hi1)%Qc -> (lo2 <= y)%Qc -> (y <= hi2)%Qc ->
  (lo1 * lo2 <= x * y)%Qc /\ (x * y <= hi1 * hi2)%Qc.
Proof.
  intros Hlo1 Hlo2 Hx1 Hx2 Hy1 Hy2.
  assert (Hx : (Q2Qc 0 <= x)%Qc).
  { apply Qclt_le_weak, (Qclt_le_trans _ _ _ Hlo1 Hx1). }
  assert (Hh2 : (Q2Qc 0 <= hi2)%Qc).
  { apply Qclt_le_weak, (Qclt_le_trans _ lo2); [done|].
    by apply (Qcle_trans _ y). }
  split.
  - apply (Qcle_trans _ (x * lo2)%Qc).
    + apply Qcmult_le_compat_r; [done|by apply Qclt_le_weak].
    + by apply Qcmult_le_mono_nonneg_l.
  - apply (Qcle_trans _ (x * hi2)%Qc).
    + by apply Qcmult_le_mono_nonneg_l.
    + by apply Qcmult_le_compat_r.
Qed.

Lemma owner_map_bounds (key : string) :
  (flt 0.90 <= get_or_one owner_map key)%Qc /\ (get_or_one owner_map key <= flt 1.05)%Qc.
Proof.
  unfold get_or_one, owner_map. rewrite !lookup_insert, lookup_empty.
  repeat case_decide; cbn [default from_option id]; split; discriminate.
Qed.

Lemma seller_map_bounds (key : string) :
  (flt 1.00 <= get_or_one seller_map key)%Qc /\ (get_or_one seller_map key <= flt 1.05)%Qc.
Proof.
  unfold get_or_one, seller_map. rewrite !lookup_insert, lookup_empty.
  repeat case_decide; cbn [default from_option id]; split; discriminate.
Qed.

Lemma km_mult_bounds (km : Qc) :
  (flt 0.88 <= km_mult km)%Qc /\ (km_mult km <= flt 1.03)%Qc.
Proof.
  unfold km_mult.
  destruct (Qcltb (flt 50000) km); [split; discriminate|].
  destruct (Qcltb (flt 30000) km); [split; discriminate|].
  destruct (Qcltb km (flt 15000)); split; discriminate.
Qed.

Lemma first_keyword_bounds (lowered : string) :
  (flt 1.00 <= default (flt 1.0) (first_keyword model_map lowered))%Qc /\
  (default (flt 1.0) (first_keyword model_map lowered) <= flt 1.15)%Qc.
Proof.
  unfold model_map, first_keyword.
  repeat match goal with
         | |- context [if ?b then _ else _] => destruct b
         end; cbn [default from_option id]; split; discriminate.
Qed.

Lemma table_factor_bounds (table : string -> Qc) (lo hi : Qc) (v : pyval) :
  (lo <= 1)%Qc -> (1 <= hi)%Qc ->
  (forall key, (lo <= table key)%Qc /\ (table key <= hi)%Qc) ->
  (lo <= default 1 (table_factor table v))%Qc /\
  (default 1 (table_factor table v) <= hi)%Qc.
Proof.
  intros Hlo Hhi Htable. unfold table_factor.
  destruct v as [| | | |s| |]; cbn [default from_option id]; try done.
  destruct (String.eqb s ""); cbn [default from_option id]; [done|apply Htable].
Qed.

(** The total multiplier of a run lies between the product of the smallest
    factors and the product of the largest. *)
Lemma total_bounds (owner seller_type model_name : pyval) (km_driven : option Qc) :
  let total := (default 1 (owner_factor owner) * default 1 (seller_factor seller_type)
                * default 1 (km_mult <$> km_driven)
                * default 1 (model_factor model_name))%Qc in
  (flt 0.792 <= total)%Qc /\ (total <= flt 1.30591125)%Qc.
Proof.
  intros total. subst total.
  destruct (table_factor_bounds (get_or_one owner_map) (flt 0.90) (flt 1.05) owner)
    as [Ho1 Ho2]; [discriminate|discriminate|apply owner_map_bounds|].
  destruct (table_factor_bounds (get_or_one seller_map) (flt 1.00) (flt 1.05)
              seller_type)
    as [Hs1 Hs2]; [discriminate|discriminate|apply seller_map_bounds|].
  destruct (table_factor_bounds
              (fun lowered => default (flt 1.0) (first_keyword model_map lowered))
              (flt 1.00) (flt 1.15) model_name)
    as [Hm1 Hm2]; [discriminate|discriminate|apply first_keyword_bounds|].
  assert (Hk : (flt 0.88 <= default 1 (km_mult <$> km_driven))%Qc /\
               (default 1 (km_mult <$> km_driven) <= flt 1.03)%Qc).
  { destruct km_driven as [km|]; cbn [fmap option_fmap option_map default from_option id];
      [apply km_mult_bounds|split; discriminate]. }
  destruct Hk as [Hk1 Hk2].
  fold owner_factor in Ho1, Ho2. fold seller_factor in Hs1, Hs2.
  fold model_factor in Hm1, Hm2.
  destruct (Qcmult_bounds (flt 0.90) (flt 1.05) (flt 1.00) (flt 1.05) _ _
              eq_refl eq_refl Ho1 Ho2 Hs1 Hs2) as [H1 H2].
  destruct (Qcmult_bounds (flt 0.90 * flt 1.00) (flt 1.05 * flt 1.05)
              (flt 0.88) (flt 1.03) _ _
              eq_refl eq_refl H1 H2 Hk1 Hk2) as [H3 H4].
  destruct (Qcmult_bounds (flt 0.90 * flt 1.00 * flt 0.88)
              (flt 1.05 * flt 1.05 * flt 1.03) (flt 1.00) (flt 1.15) _ _
              eq_refl eq_refl H3 H4 Hm1 Hm2) as [H5 H6].
  split.
  - apply (Qcle_trans _ (flt 0.90 * flt 1.00 * flt 0.88 * flt 1.00)%Qc);
      [discriminate|done].
  - apply (Qcle_trans _ (flt 1.05 * flt 1.05 * flt 1.03 * flt 1.15)%Qc);
      [done|discriminate].
Qed.

(** X3.  With adjustments on, the total multiplier is at least 0.792
    (0.90 x 1.00 x 0.88 x 1.00) and at most 1.30591125
    (1.05 x 1.05 x 1.03 x 1.15), so the adjusted value of a non-negative base
    prediction lies between 0.792 and 1.30591125 times the base. *)
Theorem adjustment_within_bounds (base_pred : Qc)
    (owner seller_type model_name : option string) (km_driven : option Qc) :
  exists (adjusted total : Qc) (bd : gmap string Qc),
    apply_heuristics base_pred (opt_str owner) (opt_str seller_type)
      (opt_str model_name) km_driven true = inr (adjusted, bd) /\
    bd !! "total_multiplier" = Some total /\
    (flt 0.792 <= total)%Qc /\ (total <= flt 1.30591125)%Qc /\
    ((flt 0 <= base_pred)%Qc ->
     (base_pred * flt 0.792 <= adjusted)%Qc /\
     (adjusted <= base_pred * flt 1.30591125)%Qc).
Proof.
  rewrite apply_heuristics_total.
  destruct (total_bounds (opt_str owner) (opt_str seller_type) (opt_str model_name)
              km_driven) as [Hlo Hhi].
  set (fo := owner_factor (opt_str owner)) in *.
  set (fs := seller_factor (opt_str seller_type)) in *.
  set (fk := km_mult <$> km_driven) in *.
  set (fm := model_factor (opt_str model_name)) in *.
  exists (assembled base_pred fo fs fk fm).1,
         (default 1 fo * default 1 fs * default 1 fk * default 1 fm)%Qc,
         (assembled base_pred fo fs fk fm).2.
  split; [by destruct (assembled base_pred fo fs fk fm)|].
  split; [apply assembled_total|].
  split; [done|]. split; [done|].
  intros Hbase. unfold assembled. cbn [fst].
  split; by apply Qcmult_le_mono_nonneg_l.
Qed.

(** A fourth-hand bike with 60000 km: the lowest total, 0.792. *)
Lemma adjustment_within_bounds_witness :
  (flt 0 <= flt 50000)%Qc /\
  exists (adjusted : Qc) (bd : gmap string Qc),
    apply_heuristics (flt 50000) (opt_str (Some "4th owner")) (opt_str None)
      (opt_str None) (Some (flt 60000)) true = inr (adjusted, bd) /\
    (flt 50000 * flt 0.792 <= adjusted)%Qc /\
    (adjusted <= flt 50000 * flt 1.30591125)%Qc.
Proof.
  split; [discriminate|].
  destruct (adjustment_within_bounds (flt 50000) (Some "4th owner") None None
              (Some (flt 60000)))
    as (adjusted & total & bd & Hrun & _ & _ & _ & Hbase).
  exists adjusted, bd. split; [exact Hrun|]. apply Hbase. discriminate.
Defined.

(** The distance factor never grows with the distance. *)
Lemma km_mult_antitone (km km' : Qc) :
  (km <= km')%Qc -> (km_mult km' <= km_mult km)%Qc.
Proof.
  intros Hle. unfold km_mult.
  destruct (Qcltb (flt 50000) km) eqn:A1, (Qcltb (flt 50000) km') eqn:B1,
           (Qcltb (flt 30000) km) eqn:A2, (Qcltb (flt 30000) km') eqn:B2,
           (Qcltb km (flt 15000)) eqn:A3, (Qcltb km' (flt 15000)) eqn:B3;
    try discriminate; exfalso;
    repeat match goal with
           | H : Qcltb _ _ = true |- _ => apply Qcltb_lt in H
           | H : Qcltb _ _ = false |- _ => apply Qcltb_ge in H
           end;
    flt_order.
Qed.

Lemma table_factor_nonneg (table : string -> Qc) (lo hi : Qc) (v : pyval) :
  (Q2Qc 0 < lo)%Qc -> (lo <= 1)%Qc -> (1 <= hi)%Qc ->
  (forall key, (lo <= table key)%Qc /\ (table key <= hi)%Qc) ->
  (Q2Qc 0 <= default 1 (table_factor table v))%Qc.
Proof.
  intros Hpos Hlo Hhi Htable.
  destruct (table_factor_bounds table lo hi v Hlo Hhi Htable) as [H _].
  apply Qclt_le_weak, (Qclt_le_trans _ _ _ Hpos H).
Qed.

(** X4.  With adjustments on and the other arguments fixed, a larger
    [km_driven] never gives a larger adjusted value of a non-negative base
    prediction. *)
Theorem more_km_never_raises_price (base_pred : Qc)
    (owner seller_type model_name : option string) (km km' : Qc) :
  (flt 0 <= base_pred)%Qc -> (km <= km')%Qc ->
  exists (adjusted adjusted' : Qc) (bd bd' : gmap string Qc),
    apply_heuristics base_pred (opt_str owner) (opt_str seller_type)
      (opt_str model_name) (Some km) true = inr (adjusted, bd) /\
    apply_heuristics base_pred (opt_str owner) (opt_str seller_type)
      (opt_str model_name) (Some km') true = inr (adjusted', bd') /\
    (adjusted' <= adjusted)%Qc.
Proof.
  intros Hbase Hle. rewrite !apply_heuristics_total.
  assert (Ho : (Q2Qc 0 <= default 1 (owner_factor (opt_str owner)))%Qc).
  { apply (table_factor_nonneg _ (flt 0.90) (flt 1.05));
      [done|discriminate|discriminate|apply owner_map_bounds]. }
  assert (Hs : (Q2Qc 0 <= default 1 (seller_factor (opt_str seller_type)))%Qc).
  { apply (table_factor_nonneg _ (flt 1.00) (flt 1.05));
      [done|discriminate|discriminate|apply seller_map_bounds]. }
  assert (Hm : (Q2Qc 0 <= default 1 (model_factor (opt_str model_name)))%Qc).
  { apply (table_factor_nonneg _ (flt 1.00) (flt 1.15));
      [done|discriminate|discriminate|apply first_keyword_bounds]. }
  set (fo := owner_factor (opt_str owner)) in *.
  set (fs := seller_factor (opt_str seller_type)) in *.
  set (fm := model_factor (opt_str model_name)) in *.
  change (km_mult <$> Some km) with (Some (km_mult km)).
  change (km_mult <$> Some km') with (Some (km_mult km')).
  exists (assembled base_pred fo fs (Some (km_mult km)) fm).1,
         (assembled base_pred fo fs (Some (km_mult km')) fm).1,
         (assembled base_pred fo fs (Some (km_mult km)) fm).2,
         (assembled base_pred fo fs (Some (km_mult km')) fm).2.
  split; [by destruct (assembled base_pred fo fs (Some (km_mult km)) fm)|].
  split; [by destruct (assembled base_pred fo fs (Some (km_mult km')) fm)|].
  unfold assembled. cbn [fst default from_option id].
  apply Qcmult_le_mono_nonneg_l; [done|].
  apply Qcmult_le_compat_r; [|done].
  apply Qcmult_le_mono_nonneg_l; [by apply Qcmult_nonneg_nonneg|].
  by apply km_mult_antitone.
Qed.

(** From 14999 km to 50001 km. *)
Lemma more_km_never_raises_price_witness :
  (flt 0 <= flt 50000)%Qc /\ (flt 14999 <= flt 50001)%Qc /\
  exists (adjusted adjusted' : Qc) (bd bd' : gmap string Qc),
    apply_heuristics (flt 50000) (opt_str (Some "1st owner")) (opt_str None)
      (opt_str None) (Some (flt 14999)) true = inr (adjusted, bd) /\
    apply_heuristics (flt 50000) (opt_str (Some "1st owner")) (opt_str None)
      (opt_str None) (Some (flt 50001)) true = inr (adjusted', bd') /\
    (adjusted' <= adjusted)%Qc.
Proof.
  split; [discriminate|]. split; [discriminate|].
  apply (more_km_never_raises_price (flt 50000) (Some "1st owner") None None
           (flt 14999) (flt 50001)); discriminate.
Defined.

Lemma owner_step_raises (v : pyval) (st : adj_state) :
  lowerable v = false -> owner_step v st = inl (AttributeError v "lower").
Proof.
  destruct st as [m bd]. unfold lowerable, owner_step.
  destruct v; try discriminate; intros H; apply negb_false_iff in H; by rewrite H.
Qed.

Lemma seller_step_raises (v : pyval) (st : adj_state) :
  lowerable v = false -> seller_step v st = inl (AttributeError v "lower").
Proof.
  destruct st as [m bd]. unfold lowerable, seller_step.
  destruct v; try discriminate; intros H; apply negb_false_iff in H; by rewrite H.
Qed.

Lemma model_step_raises (v : pyval) (st : adj_state) :
  lowerable v = false -> model_step v st = inl (AttributeError v "lower").
Proof.
  destruct st as [m bd]. unfold lowerable, model_step.
  destruct v; try discriminate; intros H; apply negb_false_iff in H; by rewrite H.
Qed.

Lemma owner_step_returns (v : pyval) (st : adj_state) :
  lowerable v = true -> exists st', owner_step v st = inr st'.
Proof.
  destruct st as [m bd]. unfold lowerable, owner_step.
  destruct v; try (intros H; apply negb_true_iff in H; rewrite H; by eexists).
  intros _. destruct (truthy (PStr s)); by eexists.
Qed.

Lemma seller_step_returns (v : pyval) (st : adj_state) :
  lowerable v = true -> exists st', seller_step v st = inr st'.
Proof.
  destruct st as [m bd]. unfold lowerable, seller_step.
  destruct v; try (intros H; apply negb_true_iff in H; rewrite H; by eexists).
  intros _. destruct (truthy (PStr s)); by eexists.
Qed.

Lemma model_step_returns (v : pyval) (st : adj_state) :
  lowerable v = true -> exists st', model_step v st = inr st'.
Proof.
  destruct st as [m bd]. unfold lowerable, model_step.
  destruct v; try (intros H; apply negb_true_iff in H; rewrite H; by eexists).
  intros _. destruct (truthy (PStr s)); [|by eexists].
  cbn [py_lower bind ret].
  destruct (first_keyword model_map (str_lower s)); by eexists.
Qed.

(** X5.  With adjustments on, the adjuster raises exactly when one of
    [owner], [seller_type], [model_name] is true in a condition without being
    a string (a non-zero number, [true], a non-empty list or dict): the
    [AttributeError] is that of the first such argument, in this order;
    otherwise it returns. *)
Theorem adjuster_raises_on_non_string (base_pred : Qc)
    (owner seller_type model_name : pyval) (km_driven : option Qc) :
  let run :=
    apply_heuristics base_pred owner seller_type model_name km_driven true in
  (lowerable owner = false -> run = inl (AttributeError owner "lower")) /\
  (lowerable owner = true -> lowerable seller_type = false ->
     run = inl (AttributeError seller_type "lower")) /\
  (lowerable owner = true -> lowerable seller_type = true ->
   lowerable model_name = false ->
     run = inl (AttributeError model_name "lower")) /\
  (lowerable owner = true -> lowerable seller_type = true ->
   lowerable model_name = true ->
     exists r, run = inr r).
Proof.
  intros run. subst run. unfold apply_heuristics. cbn [negb].
  split; [|split; [|split]].
  - intros Ho. by rewrite (owner_step_raises _ _ Ho).
  - intros Ho Hs.
    destruct (owner_step_returns owner (flt 1.0, {[ "base" := base_pred ]}) Ho)
      as [st1 ->].
    cbn [bind]. by rewrite (seller_step_raises _ _ Hs).
  - intros Ho Hs Hm.
    destruct (owner_step_returns owner (flt 1.0, {[ "base" := base_pred ]}) Ho)
      as [st1 ->].
    cbn [bind]. destruct (seller_step_returns seller_type st1 Hs) as [st2 ->].
    cbn [bind]. cbv zeta. by rewrite (model_step_raises _ _ Hm).
  - intros Ho Hs Hm.
    destruct (owner_step_returns owner (flt 1.0, {[ "base" := base_pred ]}) Ho)
      as [st1 ->].
    cbn [bind]. destruct (seller_step_returns seller_type st1 Hs) as [st2 ->].
    cbn [bind]. cbv zeta.
    destruct (model_step_returns model_name (km_step km_driven st2) Hm)
      as [[m3 bd3] ->].
    by eexists.
Qed.

(** An owner given as the number 2, and a seller type given as a list. *)
Lemma adjuster_raises_on_non_string_witness :
  lowerable (PStr "1st owner") = true /\ lowerable (PList [PStr "dealer"]) = false /\
  apply_heuristics (flt 50000) (PStr "1st owner") (PList [PStr "dealer"]) (PInt 2)
    None true
  = inl (AttributeError (PList [PStr "dealer"]) "lower").
Proof.
  split; [reflexivity|]. split; [reflexivity|].
  exact (proj1 (proj2 (adjuster_raises_on_non_string (flt 50000) (PStr "1st owner")
                         (PList [PStr "dealer"]) (PInt 2) None))
           eq_refl eq_refl).
Defined.

(** * Further properties of the request handlers *)

(** On optional arguments that are strings or [None] the adjuster returns,
    with adjustments on or off. *)
Lemma apply_heuristics_returns (base_pred : Qc)
    (owner seller_type model_name : option string) (km_driven : option Qc)
    (apply_adjustments : bool) :
  exists r,
    apply_heuristics base_pred (opt_str owner) (opt_str seller_type)
      (opt_str model_name) km_driven apply_adjustments = inr r.
Proof.
  destruct apply_adjustments; [|by eexists].
  rewrite apply_heuristics_total. by eexists.
Qed.

(** An empty string in the place of an optional argument counts as no
    argument. *)
Lemma table_factor_or_none (table : string -> Qc) (o : option string) :
  table_factor table (opt_str (or_none o)) = table_factor table (opt_str o).
Proof.
  destruct o as [s|]; [|done]. cbn [or_none].
  destruct (String.eqb s "") eqn:E; [|done].
  cbn [opt_str table_factor]. by rewrite E.
Qed.

Lemma apply_heuristics_or_none (base_pred : Qc)
    (owner seller_type model_name : option string) (km_driven : option Qc)
    (apply_adjustments : bool) :
  apply_heuristics base_pred (opt_str (or_none owner)) (opt_str (or_none seller_type))
    (opt_str (or_none model_name)) km_driven apply_adjustments
  = apply_heuristics base_pred (opt_str owner) (opt_str seller_type)
      (opt_str model_name) km_driven apply_adjustments.
Proof.
  destruct apply_adjustments; [|done].
  rewrite !apply_heuristics_total.
  unfold owner_factor, seller_factor, model_factor.
  by rewrite !table_factor_or_none.
Qed.

Section HandlerProperties.

Variable int_of_str : string -> option Z.
Variable float_of_str : string -> option Qc.
Variable CURRENT_YEAR : Z.

Local Abbreviation to_int := (py_int int_of_str).
Local Abbreviation to_float := (py_float float_of_str).
Local Abbreviation api := (predict_api int_of_str float_of_str CURRENT_YEAR).
Local Abbreviation api_try := (predict_api_try int_of_str float_of_str CURRENT_YEAR).
Local Abbreviation form_page := (index int_of_str float_of_str CURRENT_YEAR).
Local Abbreviation form_inputs := (index_inputs int_of_str float_of_str CURRENT_YEAR).
Local Abbreviation form_predict := (index_predict int_of_str float_of_str CURRENT_YEAR).

(** The range checks, passed. *)
Lemma range_checks_pass (y : Z) (km price : Qc) :
  1900 <= y <= CURRENT_YEAR -> (flt 0 <= km)%Qc -> (flt 0 < price)%Qc ->
  (y <? 1900) || (CURRENT_YEAR <? y) = false /\
  Qcltb km (flt 0) = false /\ Qcleb price (flt 0) = false.
Proof.
  intros [Hlo Hhi] Hkm Hprice. split; [|split].
  - apply orb_false_iff. split; apply Z.ltb_ge; lia.
  - by apply Qcltb_ge.
  - destruct (Qcleb price (flt 0)) eqn:E; [|done].
    apply Qcleb_le in E. exfalso. exact (Qcle_not_lt _ _ E Hprice).
Qed.

(** X6.  The form page is one of three: after a GET it shows nothing; after
    a POST it shows either an error and nothing else, or a prediction with
    its adjusted value and breakdown and no error.  A prediction is never
    shown beside an error. *)
Theorem index_page_shapes (srv : server) (method : http_method)
    (form : list (string * string)) :
  match method with
  | GET =>
      form_page srv GET form
      = {| prediction := None; adjusted_prediction := None; breakdown := None;
           error := None |}
  | POST =>
      (exists msg, form_page srv POST form = error_page msg) \/
      (exists pred adjusted bd, form_page srv POST form = result_page pred adjusted bd)
  end.
Proof.
  unfold index. destruct method.
  - by destruct (model_loaded srv).
  - destruct (model_loaded srv); cbn [negb]; [|left; by eexists].
    destruct (form_predict srv form) as [e|[km pred]]; [left; by eexists|].
    right.
    destruct (apply_heuristics_returns pred (or_none (form_get form "owner"))
                (or_none (form_get form "seller_type"))
                (or_none (form_get form "model_name")) (Some km)
                match form_get form "apply_adjustments" with
                | Some v => String.eqb v "on"
                | None => false
                end) as [[adjusted bd] ->].
    by exists pred, adjusted, bd.
Qed.

(** X7.  A form POST on a loaded model: a missing [year] field, or a field
    that does not convert, is reported with the text of the exception of
    [int] or [float]; a year outside [1900, CURRENT_YEAR], a negative
    [km_driven] and a non-positive [ex_showroom_price] are reported, in this
    order, with the three messages of the source.  No prediction is shown. *)
Theorem index_rejects_invalid_input (srv : server) (form : list (string * string)) :
  model_loaded srv = true ->
  let page := form_page srv POST form in
  (form_get form "year" = None -> page = error_page (StrOf (TypeError "int" PNone))) /\
  (forall sy sk sp,
     form_get form "year" = Some sy ->
     form_get form "km_driven" = Some sk ->
     form_get form "ex_showroom_price" = Some sp ->
     (int_of_str sy = None ->
        page = error_page (StrOf (ValueError "int" (PStr sy)))) /\
     (forall y, int_of_str sy = Some y -> float_of_str sk = None ->
        page = error_page (StrOf (ValueError "float" (PStr sk)))) /\
     (forall y km, int_of_str sy = Some y -> float_of_str sk = Some km ->
        float_of_str sp = None ->
        page = error_page (StrOf (ValueError "float" (PStr sp)))) /\
     (forall y km price,
        int_of_str sy = Some y -> float_of_str sk = Some km ->
        float_of_str sp = Some price ->
        (y < 1900 \/ CURRENT_YEAR < y ->
           page = error_page (Text "Please enter a valid manufacturing year.")) /\
        (1900 <= y <= CURRENT_YEAR -> (km < flt 0)%Qc ->
           page = error_page (Text "Kilometers driven cannot be negative.")) /\
        (1900 <= y <= CURRENT_YEAR -> (flt 0 <= km)%Qc -> (price <= flt 0)%Qc ->
           page = error_page (Text "Ex-showroom price must be positive.")))).
Proof.
  intros Hloaded page. subst page. unfold index. rewrite Hloaded. cbn [negb].
  unfold index_predict, index_inputs. split.
  - by intros ->.
  - intros sy sk sp -> -> ->. cbn [opt_str py_int py_float].
    split; [|split; [|split]].
    + by intros ->.
    + by intros y -> ->.
    + by intros y km -> -> ->.
    + intros y km price -> -> ->. cbn [bind ret]. split; [|split].
      * intros Hyear.
        assert (E : (y <? 1900) || (CURRENT_YEAR <? y) = true).
        { apply orb_true_iff. destruct Hyear; [left|right]; by apply Z.ltb_lt. }
        by rewrite E.
      * intros [Hlo Hhi] Hkm.
        assert (E : (y <? 1900) || (CURRENT_YEAR <? y) = false).
        { apply orb_false_iff. split; apply Z.ltb_ge; lia. }
        apply Qcltb_lt in Hkm. by rewrite E, Hkm.
      * intros [Hlo Hhi] Hkm Hprice.
        assert (E : (y <? 1900) || (CURRENT_YEAR <? y) = false).
        { apply orb_false_iff. split; apply Z.ltb_ge; lia. }
        apply Qcltb_ge in Hkm. apply Qcleb_le in Hprice.
        by rewrite E, Hkm, Hprice.
Qed.

(** X8.  Adjustments on the form page are opt-in: unless the field
    [apply_adjustments] is exactly "on", a shown prediction is shown
    unadjusted, with a breakdown that holds [base] only, whatever owner,
    seller type and model name say. *)
Theorem index_adjustments_opt_in (srv : server) (form : list (string * string))
    (pred : Qc) :
  form_get form "apply_adjustments" <> Some "on" ->
  prediction (form_page srv POST form) = Some pred ->
  form_page srv POST form = result_page pred pred {[ "base" := pred ]}.
Proof.
  intros Hflag. unfold index.
  destruct (model_loaded srv); cbn [negb]; [|discriminate].
  destruct (form_predict srv form) as [e|[km p]]; [discriminate|].
  assert (E : match form_get form "apply_adjustments" with
              | Some v => String.eqb v "on"
              | None => false
              end = false).
  { destruct (form_get form "apply_adjustments") as [v|]; [|done].
    apply String.eqb_neq. intros ->. by apply Hflag. }
  rewrite E. cbn [apply_heuristics negb ret prediction].
  by intros [= ->].
Qed.

(** What the [try] block returns, when it returns: the payload is an object
    and the answer a 400 of a range check or a 200. *)
Lemma predict_api_try_returns (srv : server) (data : pyval) (resp : response) :
  api_try srv data = inr resp ->
  (exists d, data = PDict d) /\
  (exists b, resp = Json 400 b \/ resp = Json 200 b).
Proof.
  unfold predict_api_try, py_getitem. destruct data; try discriminate.
  intros H. split; [by eexists|]. revert H. unfold bind, ret, py_get.
  repeat match goal with
         | |- context [match ?x with _ => _ end] => destruct x; try discriminate
         end;
    intros [= <-]; eauto.
Qed.

(** X11.  The outcomes of the JSON endpoint, for any payload: an exception
    leaves the view only for a payload that is a number other than zero or
    [true] (the membership test raises before the [try]); every other answer
    has status 200, 400 or 500; and a 200 is given only to a JSON object
    that holds the three required keys. *)
Theorem predict_api_outcomes (srv : server) (data : pyval) :
  (forall e, api srv data = Unhandled e ->
     e = TypeError "in" data /\ truthy data = true /\
     ((exists b, data = PBool b) \/ (exists z, data = PInt z)
      \/ (exists q, data = PFloat q))) /\
  (forall status b, api srv data = Json status b ->
     status = 200 \/ status = 400 \/ status = 500) /\
  (forall b, api srv data = Json 200 b ->
     exists d, data = PDict d /\ lacking d required = []).
Proof.
  unfold predict_api.
  destruct (truthy data) eqn:Htruthy; cbn [negb].
  2: { split; [discriminate|]. split; [|discriminate].
       intros status b [= <- <-]. tauto. }
  destruct data as [|b0|z|q|s|l|d]; try discriminate.
  - split; [|split; discriminate].
    intros e [= <-]. repeat split; eauto.
  - split; [|split; discriminate].
    intros e [= <-]. repeat split; eauto.
  - split; [|split; discriminate].
    intros e [= <-]. repeat split; eauto.
  - cbn [required missing_keys py_in bind ret].
    split; [|split];
      repeat match goal with
             | |- context [if ?c then _ else _] => destruct c
             end; try discriminate; intros *; intros [= <- <-]; tauto.
  - cbn [required missing_keys py_in bind ret].
    split; [|split];
      repeat match goal with
             | |- context [if ?c then _ else _] => destruct c
             end; try discriminate; intros *; intros [= <- <-]; tauto.
  - rewrite missing_keys_dict.
    destruct (lacking d required) as [|k missing] eqn:Hlack.
    + destruct (api_try srv (PDict d)) as [e|resp] eqn:Htry.
      * split; [discriminate|]. split; [|discriminate].
        intros status b [= <- <-]. tauto.
      * destruct (predict_api_try_returns _ _ _ Htry) as [_ [b [-> | ->]]].
        -- split; [discriminate|]. split; [|discriminate].
           intros status b' [= <- <-]. tauto.
        -- split; [discriminate|]. split.
           ++ intros status b' [= <- <-]. tauto.
           ++ intros b' _. by exists d.
    + split; [discriminate|]. split; [|discriminate].
      intros status b [= <- <-]. tauto.
Qed.


(** ** A request that passes validation *)

Section ValidRequest.

Variables (srv : server) (d : list (string * pyval)) (vy vk vp : pyval).
Variables (y : Z) (km price : Qc) (m : predictor) (pred : Qc).

Hypothesis Hyear : dict_get d "year" = Some vy.
Hypothesis Hkm : dict_get d "km_driven" = Some vk.
Hypothesis Hprice : dict_get d "ex_showroom_price" = Some vp.
Hypothesis Hy : to_int vy = inr y.
Hypothesis Hk : to_float vk = inr km.
Hypothesis Hp : to_float vp = inr price.
Hypothesis Hyear_range : 1900 <= y <= CURRENT_YEAR.
Hypothesis Hkm_range : (flt 0 <= km)%Qc.
Hypothesis Hprice_range : (flt 0 < price)%Qc.
Hypothesis Hmodel : model srv = Some m.
Hypothesis Hpred : predict m y km price (CURRENT_YEAR - y) = inr pred.

(** The endpoint on such a request: the model is asked for the features
    [year, km_driven, ex_showroom_price, CURRENT_YEAR - year], and what is
    left is the adjuster. *)
Lemma predict_api_valid :
  api srv (PDict d)
  = match apply_heuristics pred (default PNone (dict_get d "owner"))
            (default PNone (dict_get d "seller_type"))
            (default PNone (dict_get d "model_name")) (Some km)
            (truthy (default (PBool false) (dict_get d "apply_adjustments"))) with
    | inl e => Json 500 (ErrorBody (str_exn e))
    | inr (adjusted, bd) => Json 200 (PredictionBody pred adjusted bd)
    end.
Proof.
  rewrite (predict_api_complete _ _ _ srv d vy vk vp Hyear Hkm Hprice).
  rewrite (predict_api_try_complete _ _ _ srv d vy vk vp Hyear Hkm Hprice).
  rewrite Hy, Hk, Hp. cbn [bind].
  destruct (range_checks_pass y km price Hyear_range Hkm_range Hprice_range)
    as (-> & -> & ->).
  unfold model_predict. rewrite Hmodel, Hpred. cbn [bind].
  destruct (apply_heuristics _ _ _ _ _ _) as [e|[adjusted bd]]; reflexivity.
Qed.

(** X12.  A valid request without a true [apply_adjustments] is answered 200
    with the prediction of the model on [year, km_driven, ex_showroom_price,
    CURRENT_YEAR - year], the same value as adjusted prediction and a
    breakdown that holds [base] only, whatever [owner], [seller_type] and
    [model_name] carry. *)
Theorem predict_api_unadjusted :
  truthy (default (PBool false) (dict_get d "apply_adjustments")) = false ->
  api srv (PDict d) = Json 200 (PredictionBody pred pred {[ "base" := pred ]}).
Proof. intros Hflag. rewrite predict_api_valid, Hflag. reflexivity. Qed.

(** X13.  A valid request with a true [apply_adjustments] whose [owner],
    [seller_type] and [model_name] are strings or absent is answered 200;
    the breakdown holds the prediction as [base], always holds
    [km_multiplier] (the handler passes the validated [km_driven], so the
    factor is one of the bands from zero up), and the adjusted prediction
    is the prediction times the recorded [total_multiplier]. *)
Theorem predict_api_adjusted (owner seller_type model_name : option string) :
  truthy (default (PBool false) (dict_get d "apply_adjustments")) = true ->
  default PNone (dict_get d "owner") = opt_str owner ->
  default PNone (dict_get d "seller_type") = opt_str seller_type ->
  default PNone (dict_get d "model_name") = opt_str model_name ->
  exists (adjusted total : Qc) (bd : gmap string Qc),
    api srv (PDict d) = Json 200 (PredictionBody pred adjusted bd) /\
    bd !! "base" = Some pred /\
    bd !! "km_multiplier" = Some (km_mult km) /\
    In (km_mult km) [flt 0.88; flt 0.95; flt 1.03; flt 1.0] /\
    bd !! "total_multiplier" = Some total /\
    bd !! "adjusted" = Some adjusted /\
    adjusted = (pred * total)%Qc.
Proof.
  intros Hflag Ho Hs Hm. rewrite predict_api_valid, Hflag, Ho, Hs, Hm.
  rewrite apply_heuristics_total.
  set (fo := owner_factor (opt_str owner)).
  set (fs := seller_factor (opt_str seller_type)).
  set (fm := model_factor (opt_str model_name)).
  exists (assembled pred fo fs (km_mult <$> Some km) fm).1,
         (default 1 fo * default 1 fs * default 1 (km_mult <$> Some km)
          * default 1 fm)%Qc,
         (assembled pred fo fs (km_mult <$> Some km) fm).2.
  split; [by destruct (assembled pred fo fs (km_mult <$> Some km) fm)|].
  rewrite assembled_base, assembled_km, assembled_total, assembled_adjusted.
  repeat split; try done.
  unfold km_mult.
  destruct (Qcltb (flt 50000) km); [simpl; tauto|].
  destruct (Qcltb (flt 30000) km); [simpl; tauto|].
  destruct (Qcltb km (flt 15000)); simpl; tauto.
Qed.

(** X14.  A valid request with a true [apply_adjustments] whose [owner] is
    true in a condition without being a string is answered 500 with the
    [AttributeError] of [owner.lower()], although validation and the model
    both succeeded. *)
Theorem predict_api_non_string_owner :
  truthy (default (PBool false) (dict_get d "apply_adjustments")) = true ->
  lowerable (default PNone (dict_get d "owner")) = false ->
  api srv (PDict d)
  = Json 500
      (ErrorBody (StrOf (AttributeError (default PNone (dict_get d "owner")) "lower"))).
Proof.
  intros Hflag Ho. rewrite predict_api_valid, Hflag.
  unfold apply_heuristics. cbn [negb].
  by rewrite (owner_step_raises _ _ Ho).
Qed.

End ValidRequest.

(** ** The two entry points *)

Lemma dict_get_json_of_form (form : list (string * string)) (key : string) :
  dict_get (json_of_form form) key = PStr <$> form_get form key.
Proof.
  induction form as [|[k v] form IH]; [done|].
  cbn [json_of_form List.map dict_get form_get]. fold (json_of_form form).
  by destruct (String.eqb k key).
Qed.

Lemma predict_api_200_complete (srv : server) (d : list (string * pyval)) (b : body) :
  api srv (PDict d) = Json 200 b -> lacking d required = [].
Proof.
  unfold predict_api. destruct (truthy (PDict d)); cbn [negb]; [|discriminate].
  rewrite missing_keys_dict. by destruct (lacking d required).
Qed.

(** X9.  The form page and the JSON endpoint agree: with a loaded model,
    a form that names no field twice and whose [apply_adjustments] field is
    absent, empty or "on" shows the prediction, adjusted value and breakdown
    exactly when the JSON endpoint answers the same fields, sent as strings,
    with a 200 that carries these three values. *)
Theorem form_and_json_agree (srv : server) (form : list (string * string))
    (pred adjusted : Qc) (bd : gmap string Qc) :
  model_loaded srv = true ->
  NoDup (List.map fst form) ->
  form_get form "apply_adjustments" = None
  \/ form_get form "apply_adjustments" = Some "on"
  \/ form_get form "apply_adjustments" = Some "" ->
  form_page srv POST form = result_page pred adjusted bd
  <-> api srv (PDict (json_of_form form)) = Json 200 (PredictionBody pred adjusted bd).
Proof.
  intros Hloaded _ Hflag.
  assert (Hsame :
    match form_get form "apply_adjustments" with
    | Some v => String.eqb v "on"
    | None => false
    end
    = truthy (default (PBool false)
                (dict_get (json_of_form form) "apply_adjustments"))).
  { rewrite dict_get_json_of_form. by destruct Hflag as [-> | [-> | ->]]. }
  assert (Hopt : forall key,
            default PNone (dict_get (json_of_form form) key)
            = opt_str (form_get form key)).
  { intros key. rewrite dict_get_json_of_form. by destruct (form_get form key). }
  destruct (form_get form "year") as [sy|] eqn:Fy;
    [destruct (form_get form "km_driven") as [sk|] eqn:Fk;
     [destruct (form_get form "ex_showroom_price") as [sp|] eqn:Fp|]|].
  - assert (Dy := dict_get_json_of_form form "year").
    assert (Dk := dict_get_json_of_form form "km_driven").
    assert (Dp := dict_get_json_of_form form "ex_showroom_price").
    rewrite Fy in Dy. rewrite Fk in Dk. rewrite Fp in Dp. cbn in Dy, Dk, Dp.
    rewrite (predict_api_complete _ _ _ srv _ _ _ _ Dy Dk Dp).
    rewrite (predict_api_try_complete _ _ _ srv _ _ _ _ Dy Dk Dp).
    unfold index, index_predict, index_inputs.
    rewrite Hloaded, Fy, Fk, Fp. cbn [negb opt_str].
    destruct (to_int (PStr sy)) as [e|y]; [split; discriminate|]. cbn [bind].
    destruct (to_float (PStr sk)) as [e|km]; [split; discriminate|]. cbn [bind].
    destruct (to_float (PStr sp)) as [e|price]; [split; discriminate|]. cbn [bind].
    destruct ((y <? 1900) || (CURRENT_YEAR <? y)); [split; discriminate|].
    destruct (Qcltb km (flt 0)); [split; discriminate|].
    destruct (Qcleb price (flt 0)); [split; discriminate|].
    cbn [bind ret].
    destruct (model_predict srv y km price (CURRENT_YEAR - y)) as [e|p];
      [split; discriminate|]. cbn [bind].
    unfold ret. cbv beta iota zeta.
    rewrite apply_heuristics_or_none, Hsame, !Hopt.
    destruct (apply_heuristics_returns p (form_get form "owner")
                (form_get form "seller_type") (form_get form "model_name")
                (Some km)
                (truthy (default (PBool false)
                           (dict_get (json_of_form form) "apply_adjustments"))))
      as [[a b] ->].
    cbn [bind]. unfold result_page. split; intros [= -> -> ->]; reflexivity.
  - split.
    + unfold index, index_predict, index_inputs.
      rewrite Hloaded, Fy, Fk, Fp. cbn [negb opt_str].
      destruct (to_int (PStr sy)) as [e|y]; [discriminate|]. cbn [bind].
      destruct (to_float (PStr sk)) as [e|km]; [discriminate|].
      cbn [bind py_float raise]. discriminate.
    + intros H200. apply predict_api_200_complete in H200.
      apply lacking_all_present in H200 as (vy & vk & vp & _ & _ & Hp).
      rewrite dict_get_json_of_form, Fp in Hp. discriminate.
  - split.
    + unfold index, index_predict, index_inputs.
      rewrite Hloaded, Fy, Fk. cbn [negb opt_str].
      destruct (to_int (PStr sy)) as [e|y]; [discriminate|].
      cbn [bind py_float raise]. discriminate.
    + intros H200. apply predict_api_200_complete in H200.
      apply lacking_all_present in H200 as (vy & vk & vp & _ & Hk & _).
      rewrite dict_get_json_of_form, Fk in Hk. discriminate.
  - split.
    + unfold index, index_predict, index_inputs.
      rewrite Hloaded, Fy. discriminate.
    + intros H200. apply predict_api_200_complete in H200.
      apply lacking_all_present in H200 as (vy & vk & vp & Hy & _ & _).
      rewrite dict_get_json_of_form, Fy in Hy. discriminate.
Qed.

End HandlerProperties.

(** ** Worked instances *)

(** A form with the year 1899. *)
Lemma index_rejects_invalid_input_witness :
  model_loaded loaded_server = true /\ 1899 < 1900 /\
  index sample_int_of_str sample_float_of_str 2026 loaded_server POST
    [("year", "1899"); ("km_driven", "15000"); ("ex_showroom_price", "85000")]
  = error_page (Text "Please enter a valid manufacturing year.").
Proof.
  split; [reflexivity|]. split; [reflexivity|].
  destruct (index_rejects_invalid_input sample_int_of_str sample_float_of_str 2026
              loaded_server
              [("year", "1899"); ("km_driven", "15000");
               ("ex_showroom_price", "85000")] eq_refl) as [_ Hfields].
  destruct (Hfields "1899" "15000" "85000" eq_refl eq_refl eq_refl)
    as (_ & _ & _ & Hrange).
  destruct (Hrange 1899 (Qc_of_Z 15000) (Qc_of_Z 85000) eq_refl eq_refl eq_refl)
    as [Hyear _].
  apply Hyear. left. reflexivity.
Defined.

(** A form with an owner but without the [apply_adjustments] box ticked. *)
Lemma index_adjustments_opt_in_witness :
  form_get (("owner", "1st owner") :: example_form) "apply_adjustments" <> Some "on" /\
  index sample_int_of_str sample_float_of_str 2026 loaded_server POST
    (("owner", "1st owner") :: example_form)
  = result_page (flt 50000) (flt 50000) {[ "base" := flt 50000 ]}.
Proof.
  split; [discriminate|].
  apply index_adjustments_opt_in; [discriminate|reflexivity].
Defined.

(** The example request with owner "1st owner" and the box ticked, as a
    form and as JSON: both show 50000 adjusted to 52500, with the owner and
    distance factors in the breakdown. *)
Lemma form_and_json_agree_witness :
  let form :=
    [("year", "2018"); ("km_driven", "15000"); ("ex_showroom_price", "85000");
     ("owner", "1st owner"); ("apply_adjustments", "on")] in
  let bd : gmap string Qc :=
    <["total_multiplier" := flt 1.05]>
    (<["adjusted" := flt 52500]>
    (<["km_multiplier" := flt 1.0]>
    (<["owner_multiplier" := flt 1.05]> {[ "base" := flt 50000 ]}))) in
  model_loaded loaded_server = true /\
  NoDup (List.map fst form) /\
  form_get form "apply_adjustments" = Some "on" /\
  predict_api sample_int_of_str sample_float_of_str 2026 loaded_server
    (PDict (json_of_form form))
  = Json 200 (PredictionBody (flt 50000) (flt 52500) bd) /\
  index sample_int_of_str sample_float_of_str 2026 loaded_server POST form
  = result_page (flt 50000) (flt 52500) bd.
Proof.
  intros form bd.
  assert (Hnodup : NoDup (List.map fst form)).
  { subst form. cbn [List.map fst].
    repeat constructor; rewrite ?elem_of_cons, ?elem_of_nil; intuition discriminate. }
  assert (Hapi :
    predict_api sample_int_of_str sample_float_of_str 2026 loaded_server
      (PDict (json_of_form form))
    = Json 200 (PredictionBody (flt 50000) (flt 52500) bd)).
  { subst form bd. cbn [json_of_form List.map].
    erewrite predict_api_complete; [|reflexivity..].
    erewrite predict_api_try_complete; [|reflexivity..].
    change (py_int sample_int_of_str (PStr "2018")) with (@inr exn Z 2018).
    change (py_float sample_float_of_str (PStr "15000"))
      with (@inr exn Qc (Qc_of_Z 15000)).
    change (py_float sample_float_of_str (PStr "85000"))
      with (@inr exn Qc (Qc_of_Z 85000)).
    cbn [bind ret].
    change ((2018 <? 1900) || (2026 <? 2018)) with false.
    change (Qcltb (Qc_of_Z 15000) (flt 0)) with false.
    change (Qcleb (Qc_of_Z 85000) (flt 0)) with false.
    cbv iota.
    change (model_predict loaded_server 2018 (Qc_of_Z 15000) (Qc_of_Z 85000)
              (2026 - 2018)) with (@inr exn Qc (flt 50000)).
    cbn [bind dict_get String.eqb Ascii.eqb Bool.eqb default from_option id truthy
         negb].
    change (PStr "1st owner") with (opt_str (Some "1st owner")).
    change PNone with (opt_str None).
    rewrite apply_heuristics_total. unfold assembled.
    change (owner_factor (opt_str (Some "1st owner"))) with (Some (flt 1.05)).
    change (seller_factor (opt_str None)) with (@None Qc).
    change (model_factor (opt_str None)) with (@None Qc).
    change (km_mult <$> Some (Qc_of_Z 15000)) with (Some (flt 1.0)).
    cbn [default from_option id put].
    assert (Htotal : (flt 1.05 * 1 * flt 1.0 * 1)%Qc = flt 1.05)
      by (apply Qc_is_canon; reflexivity).
    assert (Hadj : (flt 50000 * flt 1.05)%Qc = flt 52500)
      by (apply Qc_is_canon; reflexivity).
    by rewrite Htotal, Hadj. }
  split; [reflexivity|]. split; [exact Hnodup|]. split; [reflexivity|].
  split; [exact Hapi|].
  apply (proj2 (form_and_json_agree sample_int_of_str sample_float_of_str 2026
                  loaded_server form (flt 50000) (flt 52500) bd
                  eq_refl Hnodup (or_intror (or_introl eq_refl)))).
  exact Hapi.
Defined.

(** The payload [5]. *)
Lemma predict_api_outcomes_witness :
  predict_api sample_int_of_str sample_float_of_str 2026 loaded_server (PInt 5)
  = Unhandled (TypeError "in" (PInt 5)) /\
  truthy (PInt 5) = true.
Proof.
  split; [reflexivity|].
  destruct (predict_api_outcomes sample_int_of_str sample_float_of_str 2026
              loaded_server (PInt 5)) as [Hunhandled _].
  exact (proj1 (proj2 (Hunhandled (TypeError "in" (PInt 5)) eq_refl))).
Defined.

(** The example request with a number as owner and no [apply_adjustments]. *)
Lemma predict_api_unadjusted_witness :
  predict_api sample_int_of_str sample_float_of_str 2026 loaded_server
    (PDict [("year", PInt 2018); ("km_driven", PInt 15000);
            ("ex_showroom_price", PInt 85000); ("owner", PInt 7)])
  = Json 200 (PredictionBody (flt 50000) (flt 50000) {[ "base" := flt 50000 ]}).
Proof.
  apply (predict_api_unadjusted sample_int_of_str sample_float_of_str 2026
           loaded_server _ (PInt 2018) (PInt 15000) (PInt 85000)
           2018 (Qc_of_Z 15000) (Qc_of_Z 85000) stub_model (flt 50000));
    first [reflexivity | discriminate | lia].
Defined.

(** The example request with owner "1st owner" and adjustments on. *)
Lemma predict_api_adjusted_witness :
  exists (adjusted total : Qc) (bd : gmap string Qc),
    predict_api sample_int_of_str sample_float_of_str 2026 loaded_server
      (PDict [("year", PInt 2018); ("km_driven", PInt 15000);
              ("ex_showroom_price", PInt 85000); ("owner", PStr "1st owner");
              ("apply_adjustments", PBool true)])
    = Json 200 (PredictionBody (flt 50000) adjusted bd) /\
    bd !! "km_multiplier" = Some (km_mult (Qc_of_Z 15000)) /\
    adjusted = (flt 50000 * total)%Qc.
Proof.
  assert (Hyear : 1900 <= 2018 <= 2026) by lia.
  assert (Hkm : (flt 0 <= Qc_of_Z 15000)%Qc) by discriminate.
  assert (Hprice : (flt 0 < Qc_of_Z 85000)%Qc) by reflexivity.
  destruct (predict_api_adjusted sample_int_of_str sample_float_of_str 2026
              loaded_server
              [("year", PInt 2018); ("km_driven", PInt 15000);
               ("ex_showroom_price", PInt 85000); ("owner", PStr "1st owner");
               ("apply_adjustments", PBool true)]
              (PInt 2018) (PInt 15000) (PInt 85000)
              2018 (Qc_of_Z 15000) (Qc_of_Z 85000) stub_model (flt 50000)
              eq_refl eq_refl eq_refl eq_refl eq_refl eq_refl
              Hyear Hkm Hprice eq_refl eq_refl
              (Some "1st owner") None None eq_refl eq_refl eq_refl eq_refl)
    as (adjusted & total & bd & Hresp & _ & Hfactor & _ & _ & _ & Hadj).
  by exists adjusted, total, bd.
Defined.

(** The example request with the number 7 as owner and adjustments on. *)
Lemma predict_api_non_string_owner_witness :
  predict_api sample_int_of_str sample_float_of_str 2026 loaded_server
    (PDict [("year", PInt 2018); ("km_driven", PInt 15000);
            ("ex_showroom_price", PInt 85000); ("owner", PInt 7);
            ("apply_adjustments", PBool true)])
  = Json 500 (ErrorBody (StrOf (AttributeError (PInt 7) "lower"))).
Proof.
  apply (predict_api_non_string_owner sample_int_of_str sample_float_of_str 2026
           loaded_server
           [("year", PInt 2018); ("km_driven", PInt 15000);
            ("ex_showroom_price", PInt 85000); ("owner", PInt 7);
            ("apply_adjustments", PBool true)]
           (PInt 2018) (PInt 15000) (PInt 85000)
           2018 (Qc_of_Z 15000) (Qc_of_Z 85000) stub_model (flt 50000));
    first [reflexivity | discriminate | lia].
Defined.

(** An integer beyond the range of a double: [float] raises. *)
Example km_driven_beyond_double_range :
  py_float sample_float_of_str (PInt (10 ^ 400))
  = inl (OverflowError "float" (PInt (10 ^ 400))).
Proof.
  cbv beta iota delta [py_float].
  assert (H : (Z.abs (10 ^ 400) <? FLOAT_INT_LIMIT) = false)
    by (vm_compute; reflexivity).
  by rewrite H.
Qed.

(** The largest integer that still converts. *)
Example km_driven_largest_double :
  py_float sample_float_of_str (PInt (FLOAT_INT_LIMIT - 1))
  = inr (Qc_of_Z (FLOAT_INT_LIMIT - 1)).
Proof.
  cbv beta iota delta [py_float].
  assert (H : (Z.abs (FLOAT_INT_LIMIT - 1) <? FLOAT_INT_LIMIT) = true)
    by (vm_compute; reflexivity).
  by rewrite H.
Qed.
